(** * Auto-Xabar: the recurring broadcast worker of [xabar.py]

    A shallow embedding of the scheduler core of the bot: the helpers
    [ensure_user], [has_active_sub], [get_user_groups],
    [get_first_session_string], [send_ad_with_session] and the worker
    [ads_worker], over an explicit world (the SQLite tables, the UTC clock,
    the replies of the messaging provider, the faults of the store and the
    trace of what the worker did).

    Conventions of the model:
    - times are integers, in microseconds; the clock moves at the sleeps
      the code asks for and nowhere else;
    - the INTEGER columns are unbounded integers;
    - the columns the dialogs always fill ([session_string], [group_id],
      [group_name], [phone]) are strings, the others are nullable;
    - a block [async with aiosqlite.connect(...)] goes through or raises as
      a whole, and a block that raises has written nothing;
    - [while True] is unrolled a given number of turns. *)

From Stdlib Require Import ZArith List String Ascii Bool Lia.
Import ListNotations.
Open Scope string_scope.
Open Scope Z_scope.

(** ** Python values *)

(** A naive [datetime] is its number of microseconds since
    0001-01-01T00:00:00; comparison and subtraction of naive datetimes are
    comparison and subtraction of these counts.  [fromisoformat] may also
    return an aware datetime (the text carried a UTC offset): ordering or
    subtracting it against the naive [utcnow()] raises [TypeError]. *)
Inductive datetime : Type :=
| Naive (us : Z)
| Aware (us : Z) (utcoffset : Z).

(** The text codec of [datetime] is Python's, not the repository's. *)
Class Datetime : Type := {
  isoformat : Z -> string;
  fromisoformat : string -> option datetime   (* [None]: ValueError *)
}.

(** The constants [xabar.py] reads from the environment (lines 25-31). *)
Class Config : Type := {
  ADMIN_ID : Z;
  TAGLINE : string
}.

(** [timedelta(seconds=n)] for an [int]: [OverflowError] when the number of
    days leaves [-999999999, 999999999]; otherwise the span in
    microseconds. *)
Definition timedelta_seconds (n : Z) : option Z :=
  if (-999999999 <=? n / 86400) && (n / 86400 <=? 999999999)
  then Some (n * 1000000) else None.

(** Truth value of a [str]: the empty string is false. *)
Definition truthy (s : string) : bool :=
  match s with EmptyString => false | String _ _ => true end.

(** Truth value of a nullable TEXT column: [None] and [''] are false. *)
Definition truthy_opt (o : option string) : bool :=
  match o with None => false | Some s => truthy s end.

(** [f"{x}"] for a nullable TEXT column. *)
Definition py_str (o : option string) : string :=
  match o with None => "None" | Some s => s end.

Definition newline : string := String (ascii_of_nat 10) EmptyString.

(** ** The tables of [init_db] *)

Record user_row : Type := {
  u_user_id : Z;
  u_is_admin : Z;
  u_paid_until : option string;
  u_balance : Z
}.

Record account_row : Type := {
  a_id : Z;
  a_user_id : Z;
  a_phone : string;
  a_session_string : string;
  a_is_active : Z
}.

Record group_row : Type := {
  g_id : Z;
  g_user_id : Z;
  g_group_id : string;
  g_group_name : string;
  g_is_active : Z
}.

Record message_row : Type := {
  m_id : Z;
  m_user_id : Z;
  m_text : option string;
  m_photo_path : option string;
  m_interval_sec : Z;
  m_last_sent : option string;
  m_active : Z;
  m_sent_count : Z
}.

Record database : Type := {
  users : list user_row;
  accounts : list account_row;
  groups : list group_row;
  messages : list message_row
}.

(** ** The world the coroutines run in *)

Inductive exn : Type :=
| FloodWaitError (seconds : Z)
| Exception (what : string).

(** What one call of [send_ad_with_session] comes back with. *)
Inductive reply : Type :=
| Delivered
| Throttled (seconds : Z)
| Failed (what : string).

Inductive event : Type :=
| EvSendMessage (session target : string) (text : option string) (r : reply)
| EvSendFile (session target photo : string) (caption : option string) (r : reply)
| EvSleep (us : Z)
| EvWarnFloodWait (e : exn)
| EvErrorSend (target : string) (e : exn)
| EvErrorLoop (e : exn)
| EvInfoStarted.

Record world : Type := {
  db : database;
  clock : Z;                 (* utcnow(), microseconds *)
  provider : list reply;     (* replies to the coming sends, in order *)
  store : list bool;         (* coming store accesses: [true] raises *)
  trace : list event         (* oldest first *)
}.

Definition set_db (d : database) (w : world) : world :=
  {| db := d; clock := clock w; provider := provider w;
     store := store w; trace := trace w |}.

Definition set_clock (c : Z) (w : world) : world :=
  {| db := db w; clock := c; provider := provider w;
     store := store w; trace := trace w |}.

Definition set_provider (p : list reply) (w : world) : world :=
  {| db := db w; clock := clock w; provider := p;
     store := store w; trace := trace w |}.

Definition set_store (s : list bool) (w : world) : world :=
  {| db := db w; clock := clock w; provider := provider w;
     store := s; trace := trace w |}.

Definition emit (e : event) (w : world) : world :=
  {| db := db w; clock := clock w; provider := provider w;
     store := store w; trace := trace w ++ [e] |}.

(** ** Coroutines: state passing with exceptions *)

Inductive result (A : Type) : Type :=
| Ret (a : A)
| Raise (e : exn).
Arguments Ret {A} a.
Arguments Raise {A} e.

Definition M (A : Type) : Type := world -> result A * world.

Definition ret {A} (a : A) : M A := fun w => (Ret a, w).

Definition bind {A B} (m : M A) (k : A -> M B) : M B :=
  fun w => match m w with
           | (Ret a, w') => k a w'
           | (Raise e, w') => (Raise e, w')
           end.

Definition raise {A} (e : exn) : M A := fun w => (Raise e, w).

(** [try: m  except ... as e: h e] where the handlers together cover
    [Exception]. *)
Definition try_except {A} (m : M A) (h : exn -> M A) : M A :=
  fun w => match m w with
           | (Ret a, w') => (Ret a, w')
           | (Raise e, w') => h e w'
           end.

Declare Scope co_scope.
Delimit Scope co_scope with co.
Notation "x <- m ;; k" := (bind m (fun x => k))
  (at level 100, m at next level, right associativity) : co_scope.
Notation "m ;; k" := (bind m (fun _ => k))
  (at level 100, right associativity) : co_scope.
Open Scope co_scope.

Definition log (e : event) : M unit := fun w => (Ret tt, emit e w).

(** [await asyncio.sleep(d)], [d] in microseconds: a delay that is not
    positive returns at once. *)
Definition sleep (us : Z) : M unit :=
  fun w => (Ret tt, emit (EvSleep us) (set_clock (clock w + Z.max 0 us) w)).

Definition utcnow : M Z := fun w => (Ret (clock w), w).

(** [async with aiosqlite.connect(DB_NAME) as db: await db.execute(...)]:
    the access consumes the next entry of [store] and either goes through
    or raises, the tables being as they were. *)
Definition sqlite_error : exn := Exception "sqlite3.OperationalError".

Definition db_access : M unit :=
  fun w => (if hd false (store w) then Raise sqlite_error else Ret tt,
            set_store (tl (store w)) w).

Definition read_db : M database := fun w => (Ret (db w), w).
Definition write_db (d : database) : M unit := fun w => (Ret tt, set_db d w).

(** ** The program *)

(** One row of the worker's SELECT (line 987):
    [id, user_id, text, photo_path, interval_sec, last_sent]. *)
Record ad : Type := {
  ad_msg_id : Z;
  ad_user_id : Z;
  ad_text : option string;
  ad_photo : option string;
  ad_interval : Z;
  ad_last_sent : option string
}.

Definition ad_of_row (m : message_row) : ad :=
  {| ad_msg_id := m_id m; ad_user_id := m_user_id m; ad_text := m_text m;
     ad_photo := m_photo_path m; ad_interval := m_interval_sec m;
     ad_last_sent := m_last_sent m |}.

(** How the body of the worker's [for] loop left one ad: through one of its
    four [continue]s, or through its end. *)
Inductive verdict : Type :=
| NoSubscription
| NotDue
| NoGroups
| NoSession
| PassDone.

Definition set_users (us : list user_row) (d : database) : database :=
  {| users := us; accounts := accounts d; groups := groups d;
     messages := messages d |}.

Definition set_groups (gs : list group_row) (d : database) : database :=
  {| users := users d; accounts := accounts d; groups := gs;
     messages := messages d |}.

Definition set_messages (ms : list message_row) (d : database) : database :=
  {| users := users d; accounts := accounts d; groups := groups d;
     messages := ms |}.

(** [UPDATE messages SET last_sent=?, sent_count=sent_count+1] on one row. *)
Definition stamp (ts : string) (m : message_row) : message_row :=
  {| m_id := m_id m; m_user_id := m_user_id m; m_text := m_text m;
     m_photo_path := m_photo_path m; m_interval_sec := m_interval_sec m;
     m_last_sent := Some ts; m_active := m_active m;
     m_sent_count := m_sent_count m + 1 |}.

Definition find_user (user_id : Z) (d : database) : option user_row :=
  find (fun u => u_user_id u =? user_id) (users d).

Section Program.
Context {dt : Datetime} {cfg : Config}.

(** Lines 142-152. *)
Definition ensure_user (user_id : Z) : M unit :=
  db_access ;;
  d <- read_db ;;
  match find_user user_id d with
  | Some _ => ret tt
  | None =>
      let is_admin := if user_id =? ADMIN_ID then 1 else 0 in
      now <- utcnow ;;
      write_db (set_users (users d ++
        [{| u_user_id := user_id; u_is_admin := is_admin;
            u_paid_until := Some (isoformat now); u_balance := 0 |}]) d)
  end.

(** The comparison of line 161 with its [try]: a text that does not parse,
    or parses to an aware datetime, ends in the [except] branch. *)
Definition paid_after (paid_until : string) (now : Z) : bool :=
  match fromisoformat paid_until with
  | Some (Naive until) => until >? now
  | Some (Aware _ _) => false
  | None => false
  end.

(** Lines 154-163. *)
Definition has_active_sub (user_id : Z) : M bool :=
  db_access ;;
  d <- read_db ;;
  match find_user user_id d with
  | None => ret false
  | Some row =>
      match u_paid_until row with
      | None => ret false
      | Some s =>
          if negb (truthy s) then ret false
          else (now <- utcnow ;; ret (paid_after s now))
      end
  end.

Definition first_session_string (user_id : Z) (d : database) : option string :=
  match filter (fun a => (a_user_id a =? user_id) && (a_is_active a =? 1))
               (accounts d) with
  | a :: _ => Some (a_session_string a)
  | [] => None
  end.

(** Lines 211-218: the first active account's session, if any. *)
Definition get_first_session_string (user_id : Z) : M (option string) :=
  db_access ;;
  d <- read_db ;;
  ret (first_session_string user_id d).

Definition user_groups (user_id : Z) (d : database)
  : list (Z * string * string) :=
  map (fun g => (g_id g, g_group_id g, g_group_name g))
      (filter (fun g => (g_user_id g =? user_id) && (g_is_active g =? 1))
              (groups d)).

(** Lines 220-226. *)
Definition get_user_groups (user_id : Z) : M (list (Z * string * string)) :=
  db_access ;;
  d <- read_db ;;
  ret (user_groups user_id d).

(** Lines 807-828, the store part of [group_id_received]:
    [INSERT INTO groups (user_id, group_id, group_name)]; [id] is the next
    row id and [is_active] takes its default 1. *)
Definition insert_group (user_id : Z) (group_identifier title : string)
  (d : database) : database :=
  set_groups (groups d ++
    [{| g_id := 1 + fold_right Z.max 0 (map g_id (groups d));
        g_user_id := user_id; g_group_id := group_identifier;
        g_group_name := title; g_is_active := 1 |}]) d.

(** Lines 973-976: [send_file] with the text as caption when there is a
    photo, [send_message] otherwise. *)
Definition send_event (session target : string) (text photo : option string)
  (r : reply) : event :=
  match photo with
  | Some p => if truthy p then EvSendFile session target p text r
              else EvSendMessage session target text r
  | None => EvSendMessage session target text r
  end.

(** Lines 968-978: one call, answered by the provider. *)
Definition send_ad_with_session (session target : string)
  (text photo : option string) : M unit :=
  fun w =>
    let r := hd Delivered (provider w) in
    let w' := emit (send_event session target text photo r)
                   (set_provider (tl (provider w)) w) in
    match r with
    | Delivered => (Ret tt, w')
    | Throttled s => (Raise (FloodWaitError s), w')
    | Failed what => (Raise (Exception what), w')
    end.

(** Lines 996-1002, the time check: [false] is its [continue]. *)
Definition due (interval : Z) (last_sent : option string) (now : Z) : bool :=
  match last_sent with
  | None => true
  | Some s =>
      if truthy s then
        match fromisoformat s with
        | Some (Naive last_dt) =>
            match timedelta_seconds interval with
            | Some span => negb (now - last_dt <? span)
            | None => true            (* OverflowError, [except: pass] *)
            end
        | Some (Aware _ _) => true    (* TypeError, [except: pass] *)
        | None => true                (* ValueError, [except: pass] *)
        end
      else true
  end.

(** Line 1011. *)
Definition full_text (text : option string) : option string :=
  if truthy TAGLINE
  then Some (py_str text ++ newline ++ newline ++ TAGLINE)%string
  else text.

(** Lines 1013-1021: the [for] over the groups with its [try]. *)
Fixpoint fan_out (session : string) (text photo : option string)
  (gs : list (Z * string * string)) : M unit :=
  match gs with
  | [] => ret tt
  | (_, group_ref, _) :: rest =>
      try_except
        (send_ad_with_session session group_ref text photo ;;
         sleep 500000)
        (fun e => match e with
                  | FloodWaitError seconds =>
                      log (EvWarnFloodWait e) ;;
                      sleep (seconds * 1000000)
                  | Exception _ => log (EvErrorSend group_ref e)
                  end) ;;
      fan_out session text photo rest
  end.

(** Lines 1024-1029. *)
Definition mark_sent (msg_id : Z) : M unit :=
  db_access ;;
  now <- utcnow ;;
  d <- read_db ;;
  write_db (set_messages
    (map (fun m => if m_id m =? msg_id then stamp (isoformat now) m else m)
         (messages d)) d).

(** Lines 991-1029: the body of the [for] over the ads. *)
Definition ad_body (a : ad) : M verdict :=
  sub <- has_active_sub (ad_user_id a) ;;
  if negb sub then ret NoSubscription else
  now <- utcnow ;;
  if negb (due (ad_interval a) (ad_last_sent a) now) then ret NotDue else
  gs <- get_user_groups (ad_user_id a) ;;
  match gs with
  | [] => ret NoGroups
  | _ :: _ =>
      session <- get_first_session_string (ad_user_id a) ;;
      match session with
      | None => ret NoSession
      | Some s =>
          if negb (truthy s) then ret NoSession else
          fan_out s (full_text (ad_text a)) (ad_photo a) gs ;;
          mark_sent (ad_msg_id a) ;;
          ret PassDone
      end
  end.

Fixpoint for_ads (ads : list ad) : M unit :=
  match ads with
  | [] => ret tt
  | a :: rest => ad_body a ;; for_ads rest
  end.

(** Lines 985-989. *)
Definition select_active_ads : M (list ad) :=
  db_access ;;
  d <- read_db ;;
  ret (map ad_of_row (filter (fun m => m_active m =? 1) (messages d))).

(** Lines 983-1032: one turn of [while True]. *)
Definition tick : M unit :=
  try_except
    (ads <- select_active_ads ;; for_ads ads)
    (fun e => log (EvErrorLoop e)) ;;
  sleep 8000000.

Fixpoint ticks (n : nat) : M unit :=
  match n with
  | O => ret tt
  | S k => tick ;; ticks k
  end.

(** Lines 980-1032, the first [n] turns of the loop. *)
Definition ads_worker (n : nat) : M unit :=
  log EvInfoStarted ;; ticks n.

End Program.

(** ** A reference codec: the text [datetime.utcnow().isoformat()] writes

    [YYYY-MM-DDTHH:MM:SS] with [.ffffff] when the microseconds are not zero,
    read back by the parser below, which also reads a trailing [+HH:MM] or
    [-HH:MM] as an aware datetime.  The theorems hold for every codec; this
    one instantiates them. *)
Module Iso.

Definition is_leap (y : Z) : bool :=
  (y mod 4 =? 0) && (negb (y mod 100 =? 0) || (y mod 400 =? 0)).

Definition days_in_month (y m : Z) : Z :=
  if m =? 2 then (if is_leap y then 29 else 28)
  else if (m =? 4) || (m =? 6) || (m =? 9) || (m =? 11) then 30 else 31.

Definition days_before_year (y : Z) : Z :=
  let p := y - 1 in p * 365 + p / 4 - p / 100 + p / 400.

Definition days_before_month (y m : Z) : Z :=
  fold_right Z.add 0
    (map (fun k => days_in_month y (Z.of_nat k)) (seq 1 (Z.to_nat (m - 1)))).

Definition us_per_day : Z := 86400000000.

(** Microseconds since 0001-01-01T00:00:00 of a civil date and time. *)
Definition to_us (y m d hh mm ss us : Z) : Z :=
  (days_before_year y + days_before_month y m + (d - 1)) * us_per_day
  + ((hh * 60 + mm) * 60 + ss) * 1000000 + us.

(** The year and the day within it of a day count from 0001-01-01. *)
Definition year_of_days (n : Z) : Z * Z :=
  let n400 := n / 146097 in let r := n mod 146097 in
  let n100 := r / 36524 in let r := r mod 36524 in
  let n4 := r / 1461 in let r := r mod 1461 in
  let n1 := r / 365 in let r := r mod 365 in
  let y := n400 * 400 + n100 * 100 + n4 * 4 + n1 + 1 in
  if (n1 =? 4) || (n100 =? 4) then (y - 1, 365) else (y, r).

Fixpoint month_of_days (fuel : nat) (y m n : Z) : Z * Z :=
  match fuel with
  | O => (m, n)
  | S k => if n <? days_in_month y m then (m, n)
           else month_of_days k y (m + 1) (n - days_in_month y m)
  end.

Definition digit (n : Z) : ascii := ascii_of_nat (48 + Z.to_nat (n mod 10)).

Fixpoint decimal (width : nat) (n : Z) : string :=
  match width with
  | O => EmptyString
  | S k => (decimal k (n / 10) ++ String (digit n) EmptyString)%string
  end.

Definition format (t : Z) : string :=
  let '(y, doy) := year_of_days (t / us_per_day) in
  let '(m, d0) := month_of_days 11 y 1 doy in
  let r := t mod us_per_day in
  let s := r / 1000000 in
  let us := r mod 1000000 in
  (decimal 4 y ++ "-" ++ decimal 2 m ++ "-" ++ decimal 2 (d0 + 1) ++ "T"
   ++ decimal 2 (s / 3600) ++ ":" ++ decimal 2 (s / 60 mod 60) ++ ":"
   ++ decimal 2 (s mod 60)
   ++ (if (us =? 0)%Z then EmptyString else "." ++ decimal 6 us))%string.

Definition digit_value (c : ascii) : option Z :=
  let n := Z.of_nat (nat_of_ascii c) in
  if (48 <=? n) && (n <=? 57) then Some (n - 48) else None.

Fixpoint number (width : nat) (acc : Z) (s : string) : option (Z * string) :=
  match width, s with
  | O, _ => Some (acc, s)
  | S k, String c rest =>
      match digit_value c with
      | Some v => number k (acc * 10 + v) rest
      | None => None
      end
  | S _, EmptyString => None
  end.

Definition expect (c : ascii) (s : string) : option string :=
  match s with
  | String c' rest => if Ascii.eqb c c' then Some rest else None
  | EmptyString => None
  end.

Definition and_then {A B} (o : option A) (k : A -> option B) : option B :=
  match o with Some a => k a | None => None end.

Definition fraction (s : string) : option (Z * string) :=
  match s with
  | String "." rest => number 6 0 rest
  | _ => Some (0, s)
  end.

Definition offset (s : string) : option (option Z) :=
  match s with
  | EmptyString => Some None
  | String sign rest =>
      and_then (if Ascii.eqb sign "+" then Some 1
                else if Ascii.eqb sign "-" then Some (-1) else None)
      (fun sg => and_then (number 2 0 rest)
      (fun '(oh, rest) => and_then (expect ":" rest)
      (fun rest => and_then (number 2 0 rest)
      (fun '(om, rest) =>
         match rest with
         | EmptyString =>
             if (oh <? 24) && (om <? 60)
             then Some (Some (sg * (oh * 60 + om) * 60000000)) else None
         | String _ _ => None
         end))))
  end.

Definition parse (s : string) : option datetime :=
  and_then (number 4 0 s) (fun '(y, s) =>
  and_then (expect "-" s) (fun s =>
  and_then (number 2 0 s) (fun '(m, s) =>
  and_then (expect "-" s) (fun s =>
  and_then (number 2 0 s) (fun '(d, s) =>
  and_then (expect "T" s) (fun s =>
  and_then (number 2 0 s) (fun '(hh, s) =>
  and_then (expect ":" s) (fun s =>
  and_then (number 2 0 s) (fun '(mm, s) =>
  and_then (expect ":" s) (fun s =>
  and_then (number 2 0 s) (fun '(ss, s) =>
  and_then (fraction s) (fun '(us, s) =>
  and_then (offset s) (fun off =>
    if (1 <=? y) && (1 <=? m) && (m <=? 12) && (1 <=? d)
       && (d <=? days_in_month y m) && (hh <? 24) && (mm <? 60) && (ss <? 60)
    then match off with
         | None => Some (Naive (to_us y m d hh mm ss us))
         | Some o => Some (Aware (to_us y m d hh mm ss us) o)
         end
    else None))))))))))))).

Definition codec : Datetime :=
  {| isoformat := format; fromisoformat := parse |}.

Definition config : Config :=
  {| ADMIN_ID := 1; TAGLINE := "Auto reklama" |}.

End Iso.

(** ** A small installation: two subscribers, one job each *)
Module Demo.

(** 2024-02-29T12:30:05, the time of the first tick. *)
Definition t0 : Z := Iso.to_us 2024 2 29 12 30 5 0.

Definition tables : database :=
  {| users :=
       [ {| u_user_id := 7; u_is_admin := 0;
            u_paid_until := Some "2024-03-01T12:30:05"; u_balance := 0 |};
         {| u_user_id := 8; u_is_admin := 0;
            u_paid_until := Some "2024-03-05T08:00:00"; u_balance := 0 |} ];
     accounts :=
       [ {| a_id := 1; a_user_id := 7; a_phone := "998901112233";
            a_session_string := "1BVtsOKsession7"; a_is_active := 1 |};
         {| a_id := 2; a_user_id := 8; a_phone := "998904445566";
            a_session_string := "1BVtsOKsession8"; a_is_active := 1 |} ];
     groups :=
       [ {| g_id := 1; g_user_id := 7; g_group_id := "@bozor";
            g_group_name := "Bozor"; g_is_active := 1 |};
         {| g_id := 2; g_user_id := 7; g_group_id := "-1001234567890";
            g_group_name := "Elonlar"; g_is_active := 1 |};
         {| g_id := 3; g_user_id := 8; g_group_id := "@reklama";
            g_group_name := "Reklama"; g_is_active := 1 |};
         {| g_id := 4; g_user_id := 7; g_group_id := "@eski";
            g_group_name := "Eski"; g_is_active := 0 |} ];
     messages :=
       [ {| m_id := 1; m_user_id := 7; m_text := Some "Salom";
            m_photo_path := None; m_interval_sec := 60;
            m_last_sent := None; m_active := 1; m_sent_count := 0 |};
         {| m_id := 2; m_user_id := 8; m_text := Some "Chegirma";
            m_photo_path := Some "photos/8/41.jpg"; m_interval_sec := 120;
            m_last_sent := None; m_active := 1; m_sent_count := 0 |} ] |}.

Definition ad1 : ad :=
  {| ad_msg_id := 1; ad_user_id := 7; ad_text := Some "Salom";
     ad_photo := None; ad_interval := 60; ad_last_sent := None |}.

Definition ad2 : ad :=
  {| ad_msg_id := 2; ad_user_id := 8; ad_text := Some "Chegirma";
     ad_photo := Some "photos/8/41.jpg"; ad_interval := 120;
     ad_last_sent := None |}.

(** The installation at [t0], with the replies the provider will give and
    the faults the store will have. *)
Definition world0 (replies : list reply) (faults : list bool) : world :=
  {| db := tables; clock := t0; provider := replies; store := faults;
     trace := [] |}.

End Demo.

(** ** Observations on runs *)

(** A relation between the world before and after a coroutine that holds of
    every primitive step holds of the whole coroutine, as soon as it is
    reflexive and transitive. *)
Definition steps {A} (R : world -> world -> Prop) (m : M A) : Prop :=
  forall w, R w (snd (m w)).

(** The columns of a message the worker has no business with. *)
Definition frozen (m : message_row)
  : Z * Z * option string * option string * Z * Z :=
  (m_id m, m_user_id m, m_text m, m_photo_path m, m_interval_sec m,
   m_active m).

Definition same_frame (w w' : world) : Prop :=
  users (db w') = users (db w) /\
  accounts (db w') = accounts (db w) /\
  groups (db w') = groups (db w) /\
  map frozen (messages (db w')) = map frozen (messages (db w)).

(** What a run added to the trace. *)
Definition new_events (w w' : world) : list event :=
  skipn (List.length (trace w)) (trace w').

(** The destination of a send, the text it carried. *)
Definition target_of (e : event) : option string :=
  match e with
  | EvSendMessage _ g _ _ => Some g
  | EvSendFile _ g _ _ _ => Some g
  | _ => None
  end.

Definition text_of (e : event) : option (option string) :=
  match e with
  | EvSendMessage _ _ t _ => Some t
  | EvSendFile _ _ _ t _ => Some t
  | _ => None
  end.

Fixpoint targets (evs : list event) : list string :=
  match evs with
  | [] => []
  | e :: rest => match target_of e with
                 | Some g => g :: targets rest
                 | None => targets rest
                 end
  end.

Fixpoint texts (evs : list event) : list (option string) :=
  match evs with
  | [] => []
  | e :: rest => match text_of e with
                 | Some t => t :: texts rest
                 | None => texts rest
                 end
  end.

(** The sends of a trace: the destination and the text of each. *)
Fixpoint sends (evs : list event) : list (string * option string) :=
  match evs with
  | [] => []
  | EvSendMessage _ g t _ :: rest => (g, t) :: sends rest
  | EvSendFile _ g _ t _ :: rest => (g, t) :: sends rest
  | _ :: rest => sends rest
  end.

(** The time a trace spent asleep. *)
Fixpoint slept (evs : list event) : Z :=
  match evs with
  | [] => 0
  | EvSleep us :: rest => Z.max 0 us + slept rest
  | _ :: rest => slept rest
  end.

(** What follows a send in the trace, by its reply (lines 1016-1021). *)
Definition after_send (target : string) (r : reply) : list event :=
  match r with
  | Delivered => [EvSleep 500000]
  | Throttled n => [EvWarnFloodWait (FloodWaitError n); EvSleep (n * 1000000)]
  | Failed what => [EvErrorSend target (Exception what)]
  end.

Definition delay_after (r : reply) : Z :=
  match r with
  | Delivered => 500000
  | Throttled n => Z.max 0 (n * 1000000)
  | Failed _ => 0
  end.

(** The trace and the time of a whole pass over [gs], answered by [rs]. *)
Fixpoint pass_events (session : string) (text photo : option string)
  (gs : list (Z * string * string)) (rs : list reply) : list event :=
  match gs with
  | [] => []
  | (_, g, _) :: rest =>
      send_event session g text photo (hd Delivered rs)
      :: after_send g (hd Delivered rs)
      ++ pass_events session text photo rest (tl rs)
  end.

Fixpoint pass_delay (gs : list (Z * string * string)) (rs : list reply) : Z :=
  match gs with
  | [] => 0
  | _ :: rest => delay_after (hd Delivered rs) + pass_delay rest (tl rs)
  end.

(** The world after one store access. *)
Definition accessed (w : world) : world := set_store (tl (store w)) w.

Section Visits.
Context {dt : Datetime} {cfg : Config}.

(** What [has_active_sub] answers when its store access goes through. *)
Definition sub_active (user_id : Z) (d : database) (now : Z) : bool :=
  match find_user user_id d with
  | None => false
  | Some row =>
      match u_paid_until row with
      | None => false
      | Some s => truthy s && paid_after s now
      end
  end.

(** The world in which the UPDATE of an admitted ad runs: three store
    accesses and the pass after [w]. *)
Definition pass_world (a : ad) (s : string) (w : world) : world :=
  snd (fan_out s (full_text (ad_text a)) (ad_photo a)
         (user_groups (ad_user_id a) (db w))
         (accessed (accessed (accessed w)))).

(** [visits ads w a wa]: the loop [for_ads ads], started in [w], reaches the
    ad [a] and starts its body in the world [wa]. *)
Inductive visits : list ad -> world -> ad -> world -> Prop :=
| visits_here a rest w : visits (a :: rest) w a w
| visits_later a0 rest w v a wa :
    fst (ad_body a0 w) = Ret v ->
    visits rest (snd (ad_body a0 w)) a wa ->
    visits (a0 :: rest) w a wa.

(** The same for a whole tick, from its SELECT on. *)
Definition tick_visits (w : world) (a : ad) (wa : world) : Prop :=
  exists ads w0, select_active_ads w = (Ret ads, w0) /\ visits ads w0 a wa.

End Visits.

(** The tables after the UPDATE of [mark_sent]. *)
Definition stamped (id : Z) (ts : string) (d : database) : database :=
  set_messages
    (map (fun m => if m_id m =? id then stamp ts m else m) (messages d)) d.

(** The Due-Time Gate in the words of the specification, [isDue(job, now)],
    with the last run as a timestamp or unset. *)
Definition isDue_spec (intervalSeconds : Z) (lastRun : option Z) (now : Z)
  : bool :=
  match lastRun with
  | None => true
  | Some t => intervalSeconds * 1000000 <=? now - t
  end.

(** The ad as the SELECT gives it for a job that never ran. *)
Definition never_run (a : ad) : ad :=
  {| ad_msg_id := ad_msg_id a; ad_user_id := ad_user_id a;
     ad_text := ad_text a; ad_photo := ad_photo a;
     ad_interval := ad_interval a; ad_last_sent := None |}.

(** The row of a message id. *)
Definition row_of (id : Z) (d : database) : option message_row :=
  find (fun m => m_id m =? id) (messages d).

(** ** The rest of the store: balances, subscriptions, accounts, jobs *)

(** [int(message.text.strip())] is Python's: [strip] and the reading of an
    integer literal ([None]: ValueError). *)
Class Text : Type := {
  strip : string -> string;
  int_of_str : string -> option Z
}.

(** The largest [datetime], 9999-12-31T23:59:59.999999. *)
Definition max_datetime : Z := 315537897599999999.

(** [timedelta(days=n)] for an [int]: [OverflowError] beyond 999999999 days
    either way. *)
Definition timedelta_days (n : Z) : option Z :=
  if (-999999999 <=? n) && (n <=? 999999999)
  then Some (n * 86400000000) else None.

(** [datetime + timedelta]: [OverflowError] when the result leaves the
    years 1 to 9999. *)
Definition datetime_add (t span : Z) : option Z :=
  if (0 <=? t + span) && (t + span <=? max_datetime)
  then Some (t + span) else None.

(** The largest INTEGER SQLite stores; binding a larger [int] raises
    [OverflowError]. *)
Definition max_sqlite_int : Z := 9223372036854775807.

Definition min_sqlite_int : Z := -9223372036854775808.

Definition with_balance (b : Z) (u : user_row) : user_row :=
  {| u_user_id := u_user_id u; u_is_admin := u_is_admin u;
     u_paid_until := u_paid_until u; u_balance := b |}.

Definition with_paid_until (p : option string) (u : user_row) : user_row :=
  {| u_user_id := u_user_id u; u_is_admin := u_is_admin u;
     u_paid_until := p; u_balance := u_balance u |}.

Definition deactivated (a : account_row) : account_row :=
  {| a_id := a_id a; a_user_id := a_user_id a; a_phone := a_phone a;
     a_session_string := a_session_string a; a_is_active := 0 |}.

Definition set_accounts (acs : list account_row) (d : database) : database :=
  {| users := users d; accounts := acs; groups := groups d;
     messages := messages d |}.

(** How [ads_interval_received] answered. *)
Inductive interval_answer : Type :=
| TooSmall
| NotANumber
| Saved (interval : Z).

Section Store.
Context {dt : Datetime} {cfg : Config} {txt : Text}.

(** Lines 165-169. *)
Definition get_user_balance (user_id : Z) : M Z :=
  db_access ;;
  d <- read_db ;;
  ret (match find_user user_id d with
       | Some row => u_balance row
       | None => 0
       end).

(** Lines 171-177.  Binding an amount outside the INTEGER range raises
    [OverflowError] at the [execute].  A sum that leaves the range is
    stored by SQLite as a REAL, which the model does not have: what is
    proved of balances assumes the sum within the range. *)
Definition add_user_balance (user_id amount : Z) : M unit :=
  db_access ;;
  if (amount <? min_sqlite_int) || (max_sqlite_int <? amount)
  then raise (Exception "OverflowError")
  else
    d <- read_db ;;
    write_db (set_users
      (map (fun u => if u_user_id u =? user_id
                     then with_balance (u_balance u + amount) u else u)
           (users d)) d).

(** [now + timedelta(days=days)], [None] when it raises. *)
Definition from_now (days now : Z) : option Z :=
  match timedelta_days days with
  | Some span => datetime_add now span
  | None => None
  end.

(** Lines 184-195: the new end of the subscription; [None] when the
    [OverflowError] leaves the function.  Whatever is raised inside the
    [try] lands in the [except], which counts from now. *)
Definition new_until (paid_until : option string) (days now : Z)
  : option Z :=
  match paid_until with
  | Some s =>
      if truthy s then
        match fromisoformat s with
        | Some (Naive current_until) =>
            if current_until >? now then
              match timedelta_days days with
              | Some span =>
                  match datetime_add current_until span with
                  | Some t => Some t
                  | None => from_now days now
                  end
              | None => from_now days now
              end
            else from_now days now
        | Some (Aware _ _) => from_now days now
        | None => from_now days now
        end
      else from_now days now
  | None => from_now days now
  end.

(** Lines 179-201. *)
Definition activate_subscription (user_id days : Z) : M unit :=
  db_access ;;
  d <- read_db ;;
  now <- utcnow ;;
  match new_until match find_user user_id d with
                  | Some row => u_paid_until row
                  | None => None
                  end days now with
  | None => raise (Exception "OverflowError")
  | Some t =>
      write_db (set_users
        (map (fun u => if u_user_id u =? user_id
                       then with_paid_until (Some (isoformat t)) u else u)
             (users d)) d)
  end.

(** Lines 203-209. *)
Definition get_user_accounts (user_id : Z) : M (list (Z * string)) :=
  db_access ;;
  d <- read_db ;;
  ret (map (fun a => (a_id a, a_phone a))
           (filter (fun a => (a_user_id a =? user_id) && (a_is_active a =? 1))
                   (accounts d))).

(** Lines 724-729, the store part of [session_received]:
    [INSERT INTO accounts (user_id, phone, session_string)]. *)
Definition insert_account (user_id : Z) (phone session_string : string)
  (d : database) : database :=
  set_accounts (accounts d ++
    [{| a_id := 1 + fold_right Z.max 0 (map a_id (accounts d));
        a_user_id := user_id; a_phone := phone;
        a_session_string := session_string; a_is_active := 1 |}]) d.

(** Lines 750-758, the store part of [delete_account]. *)
Definition delete_account (acc_id user_id : Z) : M unit :=
  db_access ;;
  d <- read_db ;;
  write_db (set_accounts
    (map (fun a => if (a_id a =? acc_id) && (a_user_id a =? user_id)
                   then deactivated a else a)
         (accounts d)) d).

(** Lines 904-931, with the text and the photo the dialog collected.  The
    row gets the next id; [last_sent] and [sent_count] take their defaults.
    A message without text has no [strip]; an interval SQLite cannot hold
    raises at the INSERT. *)
Definition ads_interval_received (user_id : Z) (message_text : option string)
  (text photo : option string) : M interval_answer :=
  match message_text with
  | None => raise (Exception "AttributeError")
  | Some mt =>
      match int_of_str (strip mt) with
      | None => ret NotANumber
      | Some interval =>
          if interval <? 15 then ret TooSmall else
          db_access ;;
          d <- read_db ;;
          if max_sqlite_int <? interval
          then raise (Exception "OverflowError")
          else
            write_db (set_messages (messages d ++
              [{| m_id := 1 + fold_right Z.max 0 (map m_id (messages d));
                  m_user_id := user_id; m_text := text;
                  m_photo_path := photo; m_interval_sec := interval;
                  m_last_sent := None; m_active := 1;
                  m_sent_count := 0 |}]) d) ;;
            ret (Saved interval)
      end
  end.

(** Line 948 of [ads_list]: the text shown for a job.  A [str] is its
    sequence of code points, which is what [len] counts and the slice
    cuts; a [NULL] text has no [len] ([TypeError]). *)
Definition short (msg_text : option (list N)) : result (list N) :=
  match msg_text with
  | None => Raise (Exception "TypeError")
  | Some cps =>
      if (43 <? List.length cps)%nat
      then Ret (firstn 40 cps ++ [46%N; 46%N; 46%N])%list
      else Ret cps
  end.

End Store.

(** A reference reader of integers: blanks stripped, an optional sign,
    decimal digits. *)
Module Dec.

Definition blank (c : ascii) : bool :=
  let n := nat_of_ascii c in
  ((9 <=? n) && (n <=? 13))%nat || (n =? 32)%nat.

Fixpoint lstrip (s : string) : string :=
  match s with
  | String c rest => if blank c then lstrip rest else s
  | EmptyString => EmptyString
  end.

Fixpoint rstrip (s : string) : string :=
  match s with
  | String c rest =>
      match rstrip rest with
      | EmptyString => if blank c then EmptyString
                       else String c EmptyString
      | r => String c r
      end
  | EmptyString => EmptyString
  end.

Fixpoint digits (acc : Z) (s : string) : option Z :=
  match s with
  | EmptyString => Some acc
  | String c rest =>
      match Iso.digit_value c with
      | Some v => digits (acc * 10 + v) rest
      | None => None
      end
  end.

Definition unsigned (s : string) : option Z :=
  match s with
  | EmptyString => None
  | String _ _ => digits 0 s
  end.

Definition read (s : string) : option Z :=
  match s with
  | String "-" rest => option_map Z.opp (unsigned rest)
  | String "+" rest => unsigned rest
  | _ => unsigned s
  end.

Definition text : Text :=
  {| strip := fun s => rstrip (lstrip s); int_of_str := read |}.

End Dec.

(** ** The reference codec at work *)

Example iso_format_2024 :
  Iso.format (Iso.to_us 2024 2 29 12 30 5 0) = "2024-02-29T12:30:05".
Proof. vm_compute. reflexivity. Qed.

Example iso_parse_2024 :
  Iso.parse "2024-12-31T23:59:59.000250"
  = Some (Naive (Iso.to_us 2024 12 31 23 59 59 250)).
Proof. vm_compute. reflexivity. Qed.

Example iso_count_2024 :
  Iso.to_us 2024 2 29 12 30 5 0 = 63844806605 * 1000000.
Proof. vm_compute. reflexivity. Qed.

(** ** Stepwise reasoning *)

Section Steps.
Variable R : world -> world -> Prop.
Hypothesis R_refl : forall w, R w w.
Hypothesis R_trans : forall w1 w2 w3, R w1 w2 -> R w2 w3 -> R w1 w3.

Lemma steps_ret {A} (a : A) : steps R (ret a).
Proof. intros w. apply R_refl. Qed.

Lemma steps_bind {A B} (m : M A) (k : A -> M B) :
  steps R m -> (forall a, steps R (k a)) -> steps R (bind m k).
Proof.
  intros Hm Hk w. unfold bind. specialize (Hm w).
  destruct (m w) as [[a|e] w1]; simpl in *; [|exact Hm].
  eapply R_trans; [exact Hm | apply Hk].
Qed.

Lemma steps_try {A} (m : M A) (h : exn -> M A) :
  steps R m -> (forall e, steps R (h e)) -> steps R (try_except m h).
Proof.
  intros Hm Hh w. unfold try_except. specialize (Hm w).
  destruct (m w) as [[a|e] w1]; simpl in *; [exact Hm|].
  eapply R_trans; [exact Hm | apply Hh].
Qed.

Lemma steps_utcnow : steps R utcnow.
Proof. intros w. apply R_refl. Qed.

Lemma steps_read_db : steps R read_db.
Proof. intros w. apply R_refl. Qed.

End Steps.

(** ** What the worker leaves alone *)

Lemma same_frame_refl w : same_frame w w.
Proof. repeat split. Qed.

Lemma same_frame_trans w1 w2 w3 :
  same_frame w1 w2 -> same_frame w2 w3 -> same_frame w1 w3.
Proof.
  intros (U1 & A1 & G1 & M1) (U2 & A2 & G2 & M2).
  repeat split; congruence.
Qed.

Lemma same_frame_db w w' : db w' = db w -> same_frame w w'.
Proof. intros E. unfold same_frame. rewrite E. repeat split. Qed.

Lemma frame_db_access : steps same_frame db_access.
Proof. intros w. apply same_frame_db. reflexivity. Qed.

Lemma frame_log e : steps same_frame (log e).
Proof. intros w. apply same_frame_db. reflexivity. Qed.

Lemma frame_sleep us : steps same_frame (sleep us).
Proof. intros w. apply same_frame_db. reflexivity. Qed.

Lemma frozen_map_stamp ts id ms :
  map frozen (map (fun m => if m_id m =? id then stamp ts m else m) ms)
  = map frozen ms.
Proof.
  induction ms as [|m ms IH]; simpl; [reflexivity|].
  rewrite IH. destruct (m_id m =? id); reflexivity.
Qed.

Section Frame.
Context {dt : Datetime} {cfg : Config}.

Local Ltac frame_step1 :=
  first
    [ apply (steps_bind _ same_frame_trans); [ | intros ? ]
    | apply (steps_ret _ same_frame_refl)
    | apply (steps_utcnow _ same_frame_refl)
    | apply (steps_read_db _ same_frame_refl)
    | apply frame_db_access
    | apply frame_log
    | apply frame_sleep
    | match goal with
      | |- steps _ (match ?x with _ => _ end) => destruct x
      end ].

Local Ltac frame_step := repeat frame_step1.

Lemma frame_has_active_sub uid : steps same_frame (has_active_sub uid).
Proof. unfold has_active_sub. frame_step. Qed.

Lemma frame_get_user_groups uid : steps same_frame (get_user_groups uid).
Proof. unfold get_user_groups. frame_step. Qed.

Lemma frame_get_first_session_string uid :
  steps same_frame (get_first_session_string uid).
Proof. unfold get_first_session_string. frame_step. Qed.

Lemma frame_send s g t p : steps same_frame (send_ad_with_session s g t p).
Proof.
  intros w. unfold send_ad_with_session.
  destruct (hd Delivered (provider w)); apply same_frame_db; reflexivity.
Qed.

Lemma frame_fan_out s t p gs : steps same_frame (fan_out s t p gs).
Proof.
  induction gs as [|[[i g] name] rest IH]; simpl.
  - frame_step.
  - apply (steps_bind _ same_frame_trans); [ | intros _; exact IH].
    apply (steps_try _ same_frame_trans).
    + frame_step. apply frame_send.
    + intros [n|what]; frame_step.
Qed.

Lemma frame_mark_sent id : steps same_frame (mark_sent id).
Proof.
  intros w. unfold mark_sent, bind, db_access, utcnow, read_db, write_db.
  destruct (hd false (store w)); simpl;
    try (apply same_frame_db; reflexivity);
    unfold same_frame; simpl; repeat split; apply frozen_map_stamp.
Qed.

Lemma frame_ad_body a : steps same_frame (ad_body a).
Proof.
  unfold ad_body.
  repeat first
    [ apply frame_has_active_sub | apply frame_get_user_groups
    | apply frame_get_first_session_string | apply frame_fan_out
    | apply frame_mark_sent | frame_step1 ].
Qed.

Lemma frame_for_ads ads : steps same_frame (for_ads ads).
Proof.
  induction ads as [|a rest IH]; simpl.
  - apply (steps_ret _ same_frame_refl).
  - apply (steps_bind _ same_frame_trans);
      [apply frame_ad_body | intros _; exact IH].
Qed.

Lemma frame_tick : steps same_frame tick.
Proof.
  unfold tick.
  apply (steps_bind _ same_frame_trans); [ | intros _; apply frame_sleep].
  apply (steps_try _ same_frame_trans); [ | intros e; apply frame_log].
  apply (steps_bind _ same_frame_trans); [ | intros ads; apply frame_for_ads].
  unfold select_active_ads. frame_step.
Qed.

Lemma frame_ticks n : steps same_frame (ticks n).
Proof.
  induction n as [|n IH]; simpl.
  - apply (steps_ret _ same_frame_refl).
  - apply (steps_bind _ same_frame_trans);
      [apply frame_tick | intros _; exact IH].
Qed.

Lemma frame_ads_worker n : steps same_frame (ads_worker n).
Proof.
  unfold ads_worker. apply (steps_bind _ same_frame_trans).
  - apply frame_log.
  - intros _. apply frame_ticks.
Qed.

End Frame.

(** ** The fan-out pass *)

Lemma skipn_tl {A} n (l : list A) : skipn (S n) l = skipn n (tl l).
Proof. destruct l; simpl; [rewrite skipn_nil|]; reflexivity. Qed.

Section Pass.
Context {dt : Datetime} {cfg : Config}.

(** One turn of the [for] over the groups, by the reply to its send. *)
Lemma fan_out_cons s t p i g name rest w :
  fan_out s t p ((i, g, name) :: rest) w
  = fan_out s t p rest
      {| db := db w;
         clock := clock w + delay_after (hd Delivered (provider w));
         provider := tl (provider w);
         store := store w;
         trace := (trace w ++ send_event s g t p (hd Delivered (provider w))
                   :: after_send g (hd Delivered (provider w)))%list |}.
Proof.
  simpl. unfold bind at 1. unfold try_except, bind, send_ad_with_session.
  destruct (hd Delivered (provider w)) as [|n|what]; simpl;
    unfold emit, set_clock, set_provider; simpl;
    rewrite <- ?app_assoc; simpl; rewrite ?Z.add_0_r; reflexivity.
Qed.

(** The whole pass: it never raises, leaves the tables and the store
    alone, takes one reply per group and writes [pass_events]. *)
Lemma fan_out_run s t p gs : forall w,
  fan_out s t p gs w
  = (Ret tt,
     {| db := db w;
        clock := clock w + pass_delay gs (provider w);
        provider := skipn (List.length gs) (provider w);
        store := store w;
        trace := (trace w ++ pass_events s t p gs (provider w))%list |}).
Proof.
  induction gs as [|[[i g] name] rest IH]; intros w.
  - simpl. unfold ret. destruct w; simpl.
    rewrite Z.add_0_r, app_nil_r. reflexivity.
  - rewrite fan_out_cons, IH. cbn [db clock provider store trace].
    cbn [pass_delay pass_events List.length].
    rewrite skipn_tl, <- app_assoc, Z.add_assoc. reflexivity.
Qed.

Lemma targets_app evs evs' :
  targets (evs ++ evs') = (targets evs ++ targets evs')%list.
Proof.
  induction evs as [|e evs IH]; simpl; [reflexivity|].
  destruct (target_of e); simpl; rewrite IH; reflexivity.
Qed.

Lemma texts_app evs evs' :
  texts (evs ++ evs') = (texts evs ++ texts evs')%list.
Proof.
  induction evs as [|e evs IH]; simpl; [reflexivity|].
  destruct (text_of e); simpl; rewrite IH; reflexivity.
Qed.

Lemma target_of_send s g t p r : target_of (send_event s g t p r) = Some g.
Proof. unfold send_event. destruct p as [ph|]; [destruct (truthy ph)|]; reflexivity. Qed.

Lemma text_of_send s g t p r : text_of (send_event s g t p r) = Some t.
Proof. unfold send_event. destruct p as [ph|]; [destruct (truthy ph)|]; reflexivity. Qed.

Lemma targets_after_send g r : targets (after_send g r) = [].
Proof. destruct r; reflexivity. Qed.

Lemma texts_after_send g r : texts (after_send g r) = [].
Proof. destruct r; reflexivity. Qed.

(** Each group of the pass is sent to once, in the order of the list. *)
Lemma targets_pass_events s t p gs : forall rs,
  targets (pass_events s t p gs rs) = map (fun x => snd (fst x)) gs.
Proof.
  induction gs as [|[[i g] name] rest IH]; intros rs; simpl; [reflexivity|].
  rewrite target_of_send, targets_app, targets_after_send, IH. reflexivity.
Qed.

Lemma texts_pass_events s t p gs : forall rs,
  texts (pass_events s t p gs rs) = map (fun _ => t) gs.
Proof.
  induction gs as [|[[i g] name] rest IH]; intros rs; simpl; [reflexivity|].
  rewrite text_of_send, texts_app, texts_after_send, IH. reflexivity.
Qed.

Lemma new_events_app w evs w' :
  trace w' = (trace w ++ evs)%list -> new_events w w' = evs.
Proof.
  intros E. unfold new_events. rewrite E.
  rewrite skipn_app, skipn_all, Nat.sub_diag. reflexivity.
Qed.

End Pass.

(** ** The body of the loop, step by step *)

Section Body.
Context {dt : Datetime} {cfg : Config}.

Lemma has_active_sub_run uid w :
  has_active_sub uid w
  = (if hd false (store w) then Raise sqlite_error
     else Ret (sub_active uid (db w) (clock w)),
     accessed w).
Proof.
  unfold has_active_sub, sub_active, bind, db_access, read_db, accessed.
  destruct (hd false (store w)); [reflexivity|]. cbn [db set_store].
  destruct (find_user uid (db w)) as [row|]; [|reflexivity].
  destruct (u_paid_until row) as [s|]; [|reflexivity].
  destruct (truthy s); reflexivity.
Qed.

Lemma get_user_groups_run uid w :
  get_user_groups uid w
  = (if hd false (store w) then Raise sqlite_error
     else Ret (user_groups uid (db w)),
     accessed w).
Proof.
  unfold get_user_groups, bind, db_access, read_db, accessed.
  destruct (hd false (store w)); reflexivity.
Qed.

Lemma get_first_session_string_run uid w :
  get_first_session_string uid w
  = (if hd false (store w) then Raise sqlite_error
     else Ret (first_session_string uid (db w)),
     accessed w).
Proof.
  unfold get_first_session_string, bind, db_access, read_db, accessed.
  destruct (hd false (store w)); reflexivity.
Qed.

Lemma mark_sent_run id w :
  mark_sent id w
  = if hd false (store w) then (Raise sqlite_error, accessed w)
    else (Ret tt, set_db (stamped id (isoformat (clock w)) (db w)) (accessed w)).
Proof.
  unfold mark_sent, bind, db_access, read_db, utcnow, write_db, accessed.
  destruct (hd false (store w)); reflexivity.
Qed.

Lemma select_active_ads_run w :
  select_active_ads w
  = (if hd false (store w) then Raise sqlite_error
     else Ret (map ad_of_row (filter (fun m => m_active m =? 1)
                                     (messages (db w)))),
     accessed w).
Proof.
  unfold select_active_ads, bind, db_access, read_db, accessed.
  destruct (hd false (store w)); reflexivity.
Qed.

End Body.

Section BodyRuns.
Context {dt : Datetime} {cfg : Config}.

(** The body of the loop as one case analysis. *)
Lemma ad_body_run a w :
  ad_body a w =
  if hd false (store w) then (Raise sqlite_error, accessed w) else
  if negb (sub_active (ad_user_id a) (db w) (clock w))
  then (Ret NoSubscription, accessed w) else
  if negb (due (ad_interval a) (ad_last_sent a) (clock w))
  then (Ret NotDue, accessed w) else
  if hd false (store (accessed w))
  then (Raise sqlite_error, accessed (accessed w)) else
  match user_groups (ad_user_id a) (db w) with
  | [] => (Ret NoGroups, accessed (accessed w))
  | _ :: _ =>
      if hd false (store (accessed (accessed w)))
      then (Raise sqlite_error, accessed (accessed (accessed w))) else
      match first_session_string (ad_user_id a) (db w) with
      | None => (Ret NoSession, accessed (accessed (accessed w)))
      | Some s =>
          if negb (truthy s)
          then (Ret NoSession, accessed (accessed (accessed w))) else
          if hd false (store (pass_world a s w))
          then (Raise sqlite_error, accessed (pass_world a s w))
          else (Ret PassDone,
                set_db (stamped (ad_msg_id a)
                          (isoformat (clock (pass_world a s w))) (db w))
                       (accessed (pass_world a s w)))
      end
  end.
Proof.
  unfold ad_body. unfold bind at 1. rewrite has_active_sub_run.
  destruct (hd false (store w)); [reflexivity|].
  destruct (sub_active (ad_user_id a) (db w) (clock w)); [|reflexivity].
  cbn [negb]. unfold bind at 1. unfold utcnow at 1.
  change (clock (accessed w)) with (clock w).
  destruct (due (ad_interval a) (ad_last_sent a) (clock w)); [|reflexivity].
  cbn [negb]. unfold bind at 1. rewrite get_user_groups_run.
  destruct (hd false (store (accessed w))); [reflexivity|].
  change (db (accessed w)) with (db w).
  destruct (user_groups (ad_user_id a) (db w)) as [|g gs] eqn:Egs;
    [reflexivity|].
  unfold bind at 1. rewrite get_first_session_string_run.
  destruct (hd false (store (accessed (accessed w)))); [reflexivity|].
  change (db (accessed (accessed w))) with (db w).
  destruct (first_session_string (ad_user_id a) (db w)) as [s|];
    [|reflexivity].
  destruct (truthy s); [|reflexivity].
  cbn [negb]. unfold pass_world. rewrite Egs.
  unfold bind at 1. rewrite fan_out_run. cbn [snd].
  unfold bind at 1. rewrite mark_sent_run. cbn [db clock store provider trace].
  match goal with |- context [hd false ?l] => destruct (hd false l) end;
    reflexivity.
Qed.

End BodyRuns.

(** ** The time check *)

Section DueTime.
Context {dt : Datetime}.

Lemma timedelta_seconds_in_range n :
  -86399999913600 <= n <= 86399999999999 ->
  timedelta_seconds n = Some (n * 1000000).
Proof.
  intros [Hlo Hhi]. unfold timedelta_seconds.
  assert (-999999999 <= n / 86400).
  { apply Z.div_le_lower_bound; lia. }
  assert (n / 86400 <= 999999999).
  { apply Z.lt_succ_r. apply Z.div_lt_upper_bound; lia. }
  destruct (Z.leb_spec (-999999999) (n / 86400)); [|lia].
  destruct (Z.leb_spec (n / 86400) 999999999); [|lia].
  reflexivity.
Qed.

Lemma timedelta_seconds_overflow n :
  86400000000000 <= n -> timedelta_seconds n = None.
Proof.
  intros H. unfold timedelta_seconds.
  assert (1000000000 <= n / 86400).
  { apply Z.div_le_lower_bound; lia. }
  destruct (Z.leb_spec (n / 86400) 999999999); [lia|].
  rewrite andb_false_r. reflexivity.
Qed.

(** A job whose interval no [timedelta] can hold is due at every check,
    however recently it ran. *)
Lemma due_when_interval_overflows interval last_sent now :
  86400000000000 <= interval -> due interval last_sent now = true.
Proof.
  intros H. unfold due. rewrite (timedelta_seconds_overflow _ H).
  destruct last_sent as [s|]; [|reflexivity].
  destruct (truthy s); [|reflexivity].
  destruct (fromisoformat s) as [[t|t o]|]; reflexivity.
Qed.

(** C4, as amended: for an interval a [timedelta] can hold, the job is due
    exactly when its last-run timestamp is unset ([NULL] or empty), or does
    not read as a naive timestamp, or at least [interval] seconds have
    passed since it; at exactly [interval] seconds the job is due. *)
Theorem due_time_gate (interval : Z) (last_sent : option string) (now : Z) :
  -86399999913600 <= interval <= 86399999999999 ->
  (due interval last_sent now = true <->
   truthy_opt last_sent = false \/
   (exists s, last_sent = Some s /\
              forall t, fromisoformat s <> Some (Naive t)) \/
   (exists s t, last_sent = Some s /\ fromisoformat s = Some (Naive t) /\
                interval * 1000000 <= now - t)).
Proof.
  intros Hr. unfold due. rewrite (timedelta_seconds_in_range _ Hr).
  destruct last_sent as [s|]; simpl; [|tauto].
  destruct (truthy s) eqn:Es; [|tauto].
  destruct (fromisoformat s) as [[t|t o]|] eqn:Ep.
  - rewrite negb_true_iff, Z.ltb_ge. split.
    + intros H. right. right. exists s, t. auto.
    + intros [H|[(s' & E & H)|(s' & t' & E & E' & H)]].
      * discriminate.
      * injection E as <-. exfalso. apply (H t). exact Ep.
      * injection E as <-. rewrite Ep in E'. injection E' as <-. exact H.
  - split; [|reflexivity]. intros _. right. left. exists s. split; [reflexivity|].
    intros t'. rewrite Ep. discriminate.
  - split; [|reflexivity]. intros _. right. left. exists s. split; [reflexivity|].
    intros t'. rewrite Ep. discriminate.
Qed.

(** On a job whose timestamp reads, the time check is [isDue] of the
    specification. *)
Lemma due_refines_isDue interval s t now :
  -86399999913600 <= interval <= 86399999999999 ->
  truthy s = true ->
  fromisoformat s = Some (Naive t) ->
  due interval None now = isDue_spec interval None now /\
  due interval (Some s) now = isDue_spec interval (Some t) now.
Proof.
  intros Hr Ht Hp. split; [reflexivity|].
  unfold due, isDue_spec.
  rewrite Ht, Hp, (timedelta_seconds_in_range _ Hr).
  destruct (Z.ltb_spec (now - t) (interval * 1000000));
    destruct (Z.leb_spec (interval * 1000000) (now - t)); simpl;
    solve [reflexivity | lia].
Qed.

End DueTime.

Lemma due_time_gate_witness :
  let t := Iso.to_us 2024 2 29 12 30 5 0 in
  -86399999913600 <= 60 <= 86399999999999 /\
  (@due Iso.codec 60 (Some "2024-02-29T12:30:05") (t + 60000000) = true <->
   truthy_opt (Some "2024-02-29T12:30:05") = false \/
   (exists s, Some "2024-02-29T12:30:05" = Some s /\
              forall t', @fromisoformat Iso.codec s <> Some (Naive t')) \/
   (exists s t', Some "2024-02-29T12:30:05" = Some s /\
                 @fromisoformat Iso.codec s = Some (Naive t') /\
                 60 * 1000000 <= t + 60000000 - t')).
Proof.
  split; [lia|].
  apply (@due_time_gate Iso.codec 60 (Some "2024-02-29T12:30:05")). lia.
Defined.

(** The claim C4 as it stands fails: a job that ran one second ago, with an
    interval of 100,000,000,000,000 seconds, is due. *)
Lemma due_time_gate_counterexample :
  ~ (forall interval s t now,
       @fromisoformat Iso.codec s = Some (Naive t) ->
       (@due Iso.codec interval (Some s) now = true
        <-> interval * 1000000 <= now - t)).
Proof.
  intros H.
  specialize (H 100000000000000 "2024-02-29T12:30:05"
                (Iso.to_us 2024 2 29 12 30 5 0)
                (Iso.to_us 2024 2 29 12 30 6 0) eq_refl).
  destruct H as [H _].
  assert (D : @due Iso.codec 100000000000000 (Some "2024-02-29T12:30:05")
                (Iso.to_us 2024 2 29 12 30 6 0) = true)
    by (vm_compute; reflexivity).
  specialize (H D). vm_compute in H. apply H. reflexivity.
Qed.

Section FailOpen.
Context {dt : Datetime} {cfg : Config}.

Lemma due_unparsable interval s now :
  fromisoformat s = None -> due interval (Some s) now = true.
Proof.
  intros E. unfold due. rewrite E. destruct (truthy s); reflexivity.
Qed.

(** C6: a stored last-run timestamp that does not parse makes the job due
    at once, and the body of the loop then runs exactly as it does for a
    job that never ran. *)
Theorem unparsable_last_sent_is_due (a : ad) (s : string) (w : world) :
  ad_last_sent a = Some s ->
  fromisoformat s = None ->
  due (ad_interval a) (ad_last_sent a) (clock w) = true /\
  ad_body a w = ad_body (never_run a) w.
Proof.
  intros Ea Ep. rewrite Ea.
  assert (D : due (ad_interval a) (Some s) (clock w) = true)
    by (apply due_unparsable; exact Ep).
  split; [exact D|].
  rewrite !ad_body_run. unfold pass_world. cbn [never_run ad_msg_id
    ad_user_id ad_text ad_photo ad_interval ad_last_sent].
  rewrite Ea, D. reflexivity.
Qed.

(** C7: through any number of ticks the worker leaves the users, the
    accounts and the groups as they were, and of every message its id,
    owner, text, photo, interval and active flag; it writes [last_sent] and
    [sent_count] only. *)
Theorem worker_writes_runtime_state_only (n : nat) (w : world) :
  users (db (snd (ads_worker n w))) = users (db w) /\
  accounts (db (snd (ads_worker n w))) = accounts (db w) /\
  groups (db (snd (ads_worker n w))) = groups (db w) /\
  map frozen (messages (db (snd (ads_worker n w))))
  = map frozen (messages (db w)).
Proof.
  assert (H : steps same_frame (ads_worker n)).
  { unfold ads_worker. apply (steps_bind _ same_frame_trans).
    - apply frame_log.
    - intros _. apply frame_ticks. }
  destruct (H w) as (U & A & G & Ms).
  repeat split; assumption.
Qed.

End FailOpen.

Lemma unparsable_last_sent_is_due_witness :
  let a := {| ad_msg_id := 1; ad_user_id := 7; ad_text := Some "Salom";
              ad_photo := None; ad_interval := 60;
              ad_last_sent := Some "kecha" |} in
  let w := Demo.world0 [] [] in
  @due Iso.codec (ad_interval a) (ad_last_sent a) (clock w) = true /\
  @ad_body Iso.codec Iso.config a w
  = @ad_body Iso.codec Iso.config (never_run a) w.
Proof.
  intros a w.
  apply (@unparsable_last_sent_is_due Iso.codec Iso.config a "kecha" w);
    reflexivity.
Defined.

Example demo_first_pass :
  let r := @ad_body Iso.codec Iso.config Demo.ad1
             (Demo.world0 [Throttled 5; Failed "ChatWriteForbiddenError"] [])
  in
  fst r = Ret PassDone /\
  trace (snd r)
  = [ EvSendMessage "1BVtsOKsession7" "@bozor"
        (Some ("Salom" ++ newline ++ newline ++ "Auto reklama")%string)
        (Throttled 5);
      EvWarnFloodWait (FloodWaitError 5);
      EvSleep 5000000;
      EvSendMessage "1BVtsOKsession7" "-1001234567890"
        (Some ("Salom" ++ newline ++ newline ++ "Auto reklama")%string)
        (Failed "ChatWriteForbiddenError");
      EvErrorSend "-1001234567890" (Exception "ChatWriteForbiddenError") ] /\
  row_of 1 (db (snd r))
  = Some {| m_id := 1; m_user_id := 7; m_text := Some "Salom";
            m_photo_path := None; m_interval_sec := 60;
            m_last_sent := Some "2024-02-29T12:30:10"; m_active := 1;
            m_sent_count := 1 |}.
Proof. vm_compute. repeat split. Qed.

(** ** Throttling *)

Section Throttle.
Context {dt : Datetime} {cfg : Config}.

(** C1, as amended: when the send to a destination is throttled with a
    wait of [n] seconds, the sender logs a warning, sleeps exactly [n]
    seconds and goes on with the next destination; the throttled
    destination is not sent to again in this pass, in which every
    destination is sent to exactly once. *)
Theorem throttled_send_sleeps_and_moves_on
  (s : string) (t p : option string) (i : Z) (g name : string)
  (rest : list (Z * string * string)) (n : Z) (w : world) :
  hd Delivered (provider w) = Throttled n ->
  fan_out s t p ((i, g, name) :: rest) w
  = fan_out s t p rest
      {| db := db w;
         clock := clock w + Z.max 0 (n * 1000000);
         provider := tl (provider w);
         store := store w;
         trace := (trace w ++ [send_event s g t p (Throttled n);
                               EvWarnFloodWait (FloodWaitError n);
                               EvSleep (n * 1000000)])%list |} /\
  fst (fan_out s t p ((i, g, name) :: rest) w) = Ret tt /\
  targets (new_events w (snd (fan_out s t p ((i, g, name) :: rest) w)))
  = g :: map (fun x => snd (fst x)) rest.
Proof.
  intros Hr. split; [|split].
  - rewrite fan_out_cons, Hr. reflexivity.
  - rewrite fan_out_run. reflexivity.
  - rewrite fan_out_run. cbn [snd].
    rewrite (new_events_app w (pass_events s t p ((i, g, name) :: rest)
                                 (provider w))) by reflexivity.
    apply targets_pass_events.
Qed.

End Throttle.

Lemma throttled_send_sleeps_and_moves_on_witness :
  let w := Demo.world0 [Throttled 5; Delivered] [] in
  let s := "1BVtsOKsession7" in
  let gs := [(2, "-1001234567890", "Elonlar")] in
  @fan_out s (Some "Salom") None ((1, "@bozor", "Bozor") :: gs) w
  = @fan_out s (Some "Salom") None gs
      {| db := db w;
         clock := clock w + Z.max 0 (5 * 1000000);
         provider := tl (provider w);
         store := store w;
         trace := (trace w ++ [send_event s "@bozor" (Some "Salom") None
                                 (Throttled 5);
                               EvWarnFloodWait (FloodWaitError 5);
                               EvSleep (5 * 1000000)])%list |} /\
  fst (@fan_out s (Some "Salom") None ((1, "@bozor", "Bozor") :: gs) w)
  = Ret tt /\
  targets (new_events w
    (snd (@fan_out s (Some "Salom") None ((1, "@bozor", "Bozor") :: gs) w)))
  = "@bozor" :: map (fun x => snd (fst x)) gs.
Proof.
  intros w s gs.
  apply (@throttled_send_sleeps_and_moves_on s (Some "Salom") None 1
           "@bozor" "Bozor" gs 5 w).
  reflexivity.
Defined.

(** The claim C1 as it stands fails: a destination throttled with a wait
    of 5 seconds, which would accept the message afterwards, is sent to
    once; after the sleep the pass is over and the second reply was never
    asked for. *)
Lemma throttle_retry_counterexample :
  let w := Demo.world0 [Throttled 5; Delivered] [] in
  let r := @fan_out "1BVtsOKsession7" (Some "Salom") None
             [(1, "@bozor", "Bozor")] w in
  trace (snd r)
  = [ EvSendMessage "1BVtsOKsession7" "@bozor" (Some "Salom") (Throttled 5);
      EvWarnFloodWait (FloodWaitError 5);
      EvSleep 5000000 ] /\
  targets (trace (snd r)) = ["@bozor"] /\
  provider (snd r) = [Delivered].
Proof. vm_compute. repeat split. Qed.

(** ** What one ad does to the world *)

Section Cases.
Context {dt : Datetime} {cfg : Config}.

(** Either the body stops at a gate (or at a store fault before the pass)
    and nothing was sent or written, or all four gates let the ad through,
    the pass ran, and the UPDATE came after it. *)
Lemma ad_body_cases a w :
  let r := ad_body a w in
  let gs := user_groups (ad_user_id a) (db w) in
  (fst r <> Ret PassDone /\ db (snd r) = db w /\ trace (snd r) = trace w /\
   clock (snd r) = clock w /\ provider (snd r) = provider w) \/
  (exists s,
     sub_active (ad_user_id a) (db w) (clock w) = true /\
     due (ad_interval a) (ad_last_sent a) (clock w) = true /\
     gs <> [] /\
     first_session_string (ad_user_id a) (db w) = Some s /\
     truthy s = true /\
     trace (snd r)
     = (trace w ++ pass_events s (full_text (ad_text a)) (ad_photo a) gs
                     (provider w))%list /\
     clock (snd r) = clock w + pass_delay gs (provider w) /\
     provider (snd r) = skipn (List.length gs) (provider w) /\
     ((fst r = Raise sqlite_error /\ db (snd r) = db w) \/
      (fst r = Ret PassDone /\
       db (snd r)
       = stamped (ad_msg_id a) (isoformat (clock (snd r))) (db w)))).
Proof.
  intros r gs. subst r gs. rewrite ad_body_run.
  destruct (hd false (store w));
    [left; repeat split; discriminate|].
  destruct (sub_active (ad_user_id a) (db w) (clock w)) eqn:Es; cbn [negb];
    [|left; repeat split; discriminate].
  destruct (due (ad_interval a) (ad_last_sent a) (clock w)) eqn:Ed;
    cbn [negb]; [|left; repeat split; discriminate].
  destruct (hd false (store (accessed w)));
    [left; repeat split; discriminate|].
  destruct (user_groups (ad_user_id a) (db w)) as [|g gs] eqn:Eg;
    [left; repeat split; discriminate|].
  destruct (hd false (store (accessed (accessed w))));
    [left; repeat split; discriminate|].
  destruct (first_session_string (ad_user_id a) (db w)) as [s|] eqn:Ef;
    [|left; repeat split; discriminate].
  destruct (truthy s) eqn:Et; cbn [negb];
    [|left; repeat split; discriminate].
  right. exists s. unfold pass_world. rewrite Eg, fan_out_run. cbn [snd].
  repeat (split; [solve [reflexivity | discriminate | assumption]|]).
  cbn [store].
  match goal with |- context [hd false ?l] => destruct (hd false l) end.
  - repeat (split; [reflexivity|]). left. split; reflexivity.
  - repeat (split; [reflexivity|]). right. split; reflexivity.
Qed.

Lemma sub_active_true uid d now :
  sub_active uid d now = true ->
  exists row s until,
    find_user uid d = Some row /\ u_paid_until row = Some s /\
    fromisoformat s = Some (Naive until) /\ now < until.
Proof.
  unfold sub_active, paid_after. intros H.
  destruct (find_user uid d) as [row|]; [|discriminate].
  destruct (u_paid_until row) as [s|] eqn:Eu; [|discriminate].
  apply andb_true_iff in H. destruct H as [_ H].
  destruct (fromisoformat s) as [[until|until o]|] eqn:Ep; try discriminate.
  exists row, s, until. apply Z.gtb_lt in H. auto.
Qed.

Lemma first_session_string_some uid d s :
  first_session_string uid d = Some s ->
  exists acc, In acc (accounts d) /\ a_user_id acc = uid /\
              a_is_active acc = 1 /\ a_session_string acc = s.
Proof.
  unfold first_session_string. intros H.
  destruct (filter _ (accounts d)) as [|acc l] eqn:E; [discriminate|].
  injection H as <-.
  assert (I : In acc (filter (fun a => (a_user_id a =? uid)
                                       && (a_is_active a =? 1))
                             (accounts d))) by (rewrite E; left; reflexivity).
  apply filter_In in I. destruct I as [I C].
  apply andb_true_iff in C. destruct C as [C1 C2].
  apply Z.eqb_eq in C1. apply Z.eqb_eq in C2.
  exists acc. repeat split; assumption.
Qed.

Lemma truthy_nonempty s : truthy s = true -> s <> EmptyString.
Proof. destruct s; [discriminate|]. intros _. discriminate. Qed.

End Cases.

(** ** The loop over the ads and the tick *)

Section Tick.
Context {dt : Datetime} {cfg : Config}.

Lemma for_ads_cons a rest w :
  for_ads (a :: rest) w
  = match ad_body a w with
    | (Ret _, w1) => for_ads rest w1
    | (Raise e, w1) => (Raise e, w1)
    end.
Proof. reflexivity. Qed.

Lemma for_ads_app pre : forall post w w1,
  for_ads pre w = (Ret tt, w1) ->
  for_ads (pre ++ post) w = for_ads post w1.
Proof.
  induction pre as [|a pre IH]; intros post w w1 H.
  - injection H as <-. reflexivity.
  - simpl app. rewrite for_ads_cons in *.
    destruct (ad_body a w) as [[v|e] w2]; [|discriminate].
    apply IH. exact H.
Qed.

Lemma visits_In ads w a wa : visits ads w a wa -> In a ads.
Proof.
  induction 1; [left; reflexivity | right; assumption].
Qed.

(** An ad is visited when the ads before it in the list all ran to their
    end. *)
Lemma visits_split ads w a wa :
  visits ads w a wa ->
  exists pre post, ads = (pre ++ a :: post)%list /\
                   for_ads pre w = (Ret tt, wa).
Proof.
  induction 1 as [a rest w | a0 rest w v a wa Hv _ (pre & post & E & F)].
  - exists [], rest. split; reflexivity.
  - exists (a0 :: pre), post. split; [simpl; rewrite E; reflexivity|].
    rewrite for_ads_cons.
    destruct (ad_body a0 w) as [[v'|e] w2]; [exact F | discriminate].
Qed.

(** The tick never raises: whatever escapes the loop over the ads is logged
    at the tick's [except], and the 8 seconds of sleep follow. *)
Lemma tick_run w :
  tick w
  = (Ret tt,
     snd (sleep 8000000
            match (ads <- select_active_ads ;; for_ads ads) w with
            | (Ret _, w1) => w1
            | (Raise e, w1) => emit (EvErrorLoop e) w1
            end)).
Proof.
  unfold tick. unfold bind at 1. unfold try_except.
  destruct ((ads <- select_active_ads ;; for_ads ads) w) as [[u|e] w1];
    reflexivity.
Qed.

Lemma select_then_for_ads w ads w0 :
  select_active_ads w = (Ret ads, w0) ->
  (ads <- select_active_ads ;; for_ads ads) w = for_ads ads w0.
Proof. intros H. unfold bind. rewrite H. reflexivity. Qed.

Lemma select_active_ads_ok w ads w0 :
  select_active_ads w = (Ret ads, w0) ->
  ads = map ad_of_row (filter (fun m => m_active m =? 1) (messages (db w)))
  /\ w0 = accessed w.
Proof.
  rewrite select_active_ads_run.
  destruct (hd false (store w)); [discriminate|].
  intros H. injection H as <- <-. split; reflexivity.
Qed.

End Tick.

(** ** Rows of the messages table *)

Lemma row_of_stamped_same id ts d :
  row_of id (stamped id ts d) = option_map (stamp ts) (row_of id d).
Proof.
  unfold row_of, stamped; simpl.
  induction (messages d) as [|m ms IH]; simpl; [reflexivity|].
  destruct (m_id m =? id) eqn:E; simpl.
  - rewrite E. reflexivity.
  - rewrite E. exact IH.
Qed.

Lemma row_of_stamped_other id id' ts d :
  id <> id' -> row_of id (stamped id' ts d) = row_of id d.
Proof.
  intros N. unfold row_of, stamped; simpl.
  induction (messages d) as [|m ms IH]; simpl; [reflexivity|].
  destruct (m_id m =? id') eqn:E'; simpl.
  - apply Z.eqb_eq in E'.
    destruct (m_id m =? id) eqn:E; [apply Z.eqb_eq in E; congruence|].
    exact IH.
  - destruct (m_id m =? id); [reflexivity | exact IH].
Qed.

Lemma NoDup_selected_ids (f : message_row -> bool) ms :
  NoDup (map m_id ms) ->
  NoDup (map ad_msg_id (map ad_of_row (filter f ms))).
Proof.
  rewrite map_map. simpl.
  induction ms as [|m ms IH]; simpl; intros H; [constructor|].
  inversion H as [|x l Hn Hd]; subst.
  destruct (f m); simpl; [|apply IH; exact Hd].
  constructor; [|apply IH; exact Hd].
  intros I. apply Hn. apply in_map_iff in I. destruct I as (m' & E & I).
  apply filter_In in I. apply in_map_iff. exists m'. tauto.
Qed.

Lemma NoDup_app_cons_out {A} (pre : list A) x post :
  NoDup (pre ++ x :: post) -> ~ In x pre /\ ~ In x post.
Proof.
  intros H. apply NoDup_remove in H. destruct H as [_ H].
  split; intros I; apply H; apply in_or_app; [left | right]; exact I.
Qed.

Section Rows.
Context {dt : Datetime} {cfg : Config}.

Lemma ad_body_row_other a w id :
  id <> ad_msg_id a ->
  row_of id (db (snd (ad_body a w))) = row_of id (db w).
Proof.
  intros N.
  destruct (ad_body_cases a w)
    as [(_ & E & _) | (s & _ & _ & _ & _ & _ & _ & _ & _ & [[_ E]|[_ E]])];
    rewrite E; [reflexivity | reflexivity |].
  apply row_of_stamped_other. exact N.
Qed.

Lemma for_ads_row_other ads : forall w id,
  ~ In id (map ad_msg_id ads) ->
  row_of id (db (snd (for_ads ads w))) = row_of id (db w).
Proof.
  induction ads as [|a rest IH]; intros w id N; [reflexivity|].
  rewrite for_ads_cons. simpl in N.
  assert (E := ad_body_row_other a w id).
  destruct (ad_body a w) as [[v|e] w1]; simpl in E.
  - rewrite IH by tauto. apply E. intros C. apply N. left. congruence.
  - apply E. intros C. apply N. left. congruence.
Qed.

End Rows.

(** ** Bookkeeping *)

Section Bookkeeping.
Context {dt : Datetime} {cfg : Config}.

Lemma tick_db_after w ads w0 :
  select_active_ads w = (Ret ads, w0) ->
  db (snd (tick w)) = db (snd (for_ads ads w0)).
Proof.
  intros H. rewrite tick_run, (select_then_for_ads _ _ _ H).
  destruct (for_ads ads w0) as [[u|e] w1]; reflexivity.
Qed.

(** An admitted ad gets its row stamped by its own body, whatever the
    provider answered. *)
Lemma ad_body_done_row a w m :
  fst (ad_body a w) = Ret PassDone ->
  row_of (ad_msg_id a) (db w) = Some m ->
  row_of (ad_msg_id a) (db (snd (ad_body a w)))
  = Some (stamp (isoformat (clock (snd (ad_body a w)))) m).
Proof.
  intros V R.
  destruct (ad_body_cases a w)
    as [(N & _) | (s & _ & _ & _ & _ & _ & _ & _ & _ & [[F _]|[_ E]])].
  - contradiction.
  - rewrite V in F. discriminate.
  - rewrite E at 1. rewrite row_of_stamped_same, R. reflexivity.
Qed.

(** When the four gates let an ad through and the store answers the four
    accesses of the body, the body runs to its end, whatever the provider
    replies. *)
Lemma ad_body_admits a w s :
  forallb negb (firstn 4 (store w)) = true ->
  sub_active (ad_user_id a) (db w) (clock w) = true ->
  due (ad_interval a) (ad_last_sent a) (clock w) = true ->
  user_groups (ad_user_id a) (db w) <> [] ->
  first_session_string (ad_user_id a) (db w) = Some s ->
  truthy s = true ->
  fst (ad_body a w) = Ret PassDone.
Proof.
  intros Hst Hs Hd Hg Hf Ht. rewrite ad_body_run, Hs, Hd, Hf, Ht.
  unfold pass_world. rewrite fan_out_run. cbn [negb snd store].
  unfold accessed, set_store. cbn [store].
  destruct (user_groups (ad_user_id a) (db w)) as [|g gs];
    [contradiction|].
  destruct (store w) as [|b0 [|b1 [|b2 [|b3 rest]]]]; simpl in Hst |- *;
    repeat match goal with
           | b : bool |- _ => destruct b; try discriminate Hst
           end; reflexivity.
Qed.

(** C3: a job that the tick reaches and that passes the gates (active
    subscription, due, at least one group, a session), the store answering,
    gets the UPDATE exactly once in that tick: the body of the loop runs to
    its end, and after the tick the row carries the time of the UPDATE as
    [last_sent] and a [sent_count] larger by exactly 1.  Nothing is assumed
    of the replies of the provider: every destination may have failed. *)
Theorem bookkeeping_once_per_admitted_job
  (w : world) (a : ad) (wa : world) (s : string) (m : message_row) :
  NoDup (map m_id (messages (db w))) ->
  tick_visits w a wa ->
  forallb negb (firstn 4 (store wa)) = true ->
  sub_active (ad_user_id a) (db wa) (clock wa) = true ->
  due (ad_interval a) (ad_last_sent a) (clock wa) = true ->
  user_groups (ad_user_id a) (db wa) <> [] ->
  first_session_string (ad_user_id a) (db wa) = Some s ->
  truthy s = true ->
  row_of (ad_msg_id a) (db w) = Some m ->
  fst (ad_body a wa) = Ret PassDone /\
  exists m',
    row_of (ad_msg_id a) (db (snd (tick w))) = Some m' /\
    m_last_sent m' = Some (isoformat (clock (snd (ad_body a wa)))) /\
    m_sent_count m' = m_sent_count m + 1.
Proof.
  intros ND (ads & w0 & Hsel & Hv) Hst Hs Hd Hg Hf Ht R.
  assert (V := ad_body_admits a wa s Hst Hs Hd Hg Hf Ht).
  split; [exact V|].
  destruct (select_active_ads_ok _ _ _ Hsel) as [Eads Ew0].
  destruct (visits_split _ _ _ _ Hv) as (pre & post & Esplit & Hpre).
  assert (NDa : NoDup (map ad_msg_id ads))
    by (rewrite Eads; apply NoDup_selected_ids; exact ND).
  rewrite Esplit, map_app in NDa. simpl in NDa.
  apply NoDup_app_cons_out in NDa. destruct NDa as [Npre Npost].
  assert (Rwa : row_of (ad_msg_id a) (db wa) = Some m).
  { replace wa with (snd (for_ads pre w0)) by (rewrite Hpre; reflexivity).
    rewrite for_ads_row_other by exact Npre.
    rewrite Ew0. exact R. }
  exists (stamp (isoformat (clock (snd (ad_body a wa)))) m).
  split; [|split; reflexivity].
  rewrite (tick_db_after _ _ _ Hsel), Esplit.
  rewrite (for_ads_app _ _ _ _ Hpre), for_ads_cons.
  assert (D := ad_body_done_row a wa m V Rwa).
  destruct (ad_body a wa) as [[v|e] w1]; [|discriminate V].
  rewrite for_ads_row_other by exact Npost. exact D.
Qed.

End Bookkeeping.

Lemma bookkeeping_once_per_admitted_job_witness :
  let w := Demo.world0 [Failed "ChatWriteForbiddenError";
                        Failed "ChannelPrivateError"] [] in
  let a := Demo.ad1 in
  let wa := accessed w in
  let m := {| m_id := 1; m_user_id := 7; m_text := Some "Salom";
              m_photo_path := None; m_interval_sec := 60;
              m_last_sent := None; m_active := 1; m_sent_count := 0 |} in
  fst (@ad_body Iso.codec Iso.config a wa) = Ret PassDone /\
  exists m',
    row_of (ad_msg_id a) (db (snd (@tick Iso.codec Iso.config w)))
    = Some m' /\
    m_last_sent m'
    = Some (@isoformat Iso.codec
              (clock (snd (@ad_body Iso.codec Iso.config a wa)))) /\
    m_sent_count m' = m_sent_count m + 1.
Proof.
  intros w a wa m.
  apply (@bookkeeping_once_per_admitted_job Iso.codec Iso.config w a wa
           "1BVtsOKsession7" m).
  - simpl. repeat constructor; simpl; intuition discriminate.
  - exists [Demo.ad1; Demo.ad2], (accessed w).
    split; [reflexivity | apply visits_here].
  - reflexivity.
  - vm_compute. reflexivity.
  - reflexivity.
  - vm_compute. discriminate.
  - reflexivity.
  - reflexivity.
  - reflexivity.
Defined.

Example demo_all_destinations_fail :
  let w := Demo.world0 [Failed "ChatWriteForbiddenError";
                        Failed "ChannelPrivateError";
                        Failed "ChatWriteForbiddenError"] [] in
  map (fun m => (m_id m, m_last_sent m, m_sent_count m))
      (messages (db (snd (@tick Iso.codec Iso.config w))))
  = [(1, Some "2024-02-29T12:30:05", 1); (2, Some "2024-02-29T12:30:05", 1)].
Proof. vm_compute. reflexivity. Qed.

(** ** Eligibility and destinations *)

Lemma NoDup_map_eq {A B} (f : A -> B) (l : list A) x y :
  NoDup (map f l) -> In x l -> In y l -> f x = f y -> x = y.
Proof.
  induction l as [|z l IH]; simpl; intros ND Ix Iy E; [contradiction|].
  inversion ND as [|? ? Hn Hd]; subst.
  destruct Ix as [<-|Ix], Iy as [<-|Iy].
  - reflexivity.
  - exfalso. apply Hn. rewrite E. apply in_map. exact Iy.
  - exfalso. apply Hn. rewrite <- E. apply in_map. exact Ix.
  - apply IH; assumption.
Qed.

Lemma new_events_same w w' : trace w' = trace w -> new_events w w' = [].
Proof.
  intros E. apply new_events_app. rewrite app_nil_r. exact E.
Qed.

Lemma frozen_text ms ms' :
  map frozen ms = map frozen ms' ->
  map m_text ms = map m_text ms' /\
  map m_photo_path ms = map m_photo_path ms'.
Proof.
  intros E. split.
  - assert (H : forall l, map m_text l
                 = map (fun x => snd (fst (fst (fst x)))) (map frozen l))
      by (intros l; rewrite map_map; reflexivity).
    rewrite !H, E. reflexivity.
  - assert (H : forall l, map m_photo_path l
                 = map (fun x => snd (fst (fst x))) (map frozen l))
      by (intros l; rewrite map_map; reflexivity).
    rewrite !H, E. reflexivity.
Qed.

Section Eligibility.
Context {dt : Datetime} {cfg : Config}.

(** What a body that sent something went through. *)
Lemma ad_body_sent a w :
  targets (new_events w (snd (ad_body a w))) <> [] ->
  exists s,
    sub_active (ad_user_id a) (db w) (clock w) = true /\
    user_groups (ad_user_id a) (db w) <> [] /\
    first_session_string (ad_user_id a) (db w) = Some s /\
    truthy s = true /\
    new_events w (snd (ad_body a w))
    = pass_events s (full_text (ad_text a)) (ad_photo a)
        (user_groups (ad_user_id a) (db w)) (provider w).
Proof.
  intros H.
  destruct (ad_body_cases a w)
    as [(_ & _ & E & _) | (s & Hs & _ & Hg & Hf & Ht & E & _)].
  - exfalso. apply H. rewrite (new_events_same _ _ E). reflexivity.
  - exists s. repeat (split; [assumption|]).
    apply new_events_app. exact E.
Qed.

Lemma map_group_ref uid d :
  map (fun x : Z * string * string => snd (fst x)) (user_groups uid d)
  = map g_group_id
      (filter (fun g => (g_user_id g =? uid) && (g_is_active g =? 1))
              (groups d)).
Proof. unfold user_groups. rewrite map_map. reflexivity. Qed.

(** C5: in a tick, a pass is attempted for an ad only if the job is stored
    with [active = 1], the owner's [paid_until] reads as a time strictly
    later than now, the owner has an active group, and the owner has an
    active account with a session; the stored job of that id is never one
    with [active <> 1]. *)
Theorem pass_only_when_eligible (w : world) (a : ad) (wa : world) :
  NoDup (map m_id (messages (db w))) ->
  tick_visits w a wa ->
  targets (new_events wa (snd (ad_body a wa))) <> [] ->
  (exists m, In m (messages (db w)) /\ a = ad_of_row m /\ m_active m = 1) /\
  (forall m, In m (messages (db w)) -> m_id m = ad_msg_id a ->
             m_active m = 1) /\
  (exists row s until,
     find_user (ad_user_id a) (db wa) = Some row /\
     u_paid_until row = Some s /\
     fromisoformat s = Some (Naive until) /\ clock wa < until) /\
  (exists g, In g (groups (db wa)) /\ g_user_id g = ad_user_id a /\
             g_is_active g = 1) /\
  (exists acc, In acc (accounts (db wa)) /\ a_user_id acc = ad_user_id a /\
               a_is_active acc = 1 /\ a_session_string acc <> EmptyString).
Proof.
  intros ND (ads & w0 & Hsel & Hv) Hsent.
  destruct (select_active_ads_ok _ _ _ Hsel) as [Eads _].
  assert (Ia := visits_In _ _ _ _ Hv). rewrite Eads in Ia.
  apply in_map_iff in Ia. destruct Ia as (m0 & Em0 & Im0).
  apply filter_In in Im0. destruct Im0 as [Im0 Am0]. apply Z.eqb_eq in Am0.
  destruct (ad_body_sent a wa Hsent) as (s & Hs & Hg & Hf & Ht & _).
  split; [exists m0; auto|].
  split.
  { intros m Im Eid.
    assert (m = m0).
    { apply (NoDup_map_eq m_id (messages (db w))); try assumption.
      rewrite Eid, <- Em0. reflexivity. }
    subst m. exact Am0. }
  split; [apply sub_active_true; exact Hs|].
  split.
  - unfold user_groups in Hg.
    destruct (filter _ (groups (db wa))) as [|g l] eqn:E;
      [exfalso; apply Hg; reflexivity|].
    assert (I : In g (filter (fun g => (g_user_id g =? ad_user_id a)
                                       && (g_is_active g =? 1))
                             (groups (db wa))))
      by (rewrite E; left; reflexivity).
    apply filter_In in I. destruct I as [I C].
    apply andb_true_iff in C. destruct C as [C1 C2].
    apply Z.eqb_eq in C1. apply Z.eqb_eq in C2. exists g. auto.
  - destruct (first_session_string_some _ _ _ Hf) as (acc & I & U & A & S).
    exists acc. repeat (split; [assumption|]).
    rewrite S. apply truthy_nonempty. exact Ht.
Qed.

(** The trace of a body whose gates are passed, the store answering its
    three reads: the pass over the owner's groups, and nothing else. *)
Lemma ad_body_pass_trace a w s :
  forallb negb (firstn 3 (store w)) = true ->
  sub_active (ad_user_id a) (db w) (clock w) = true ->
  due (ad_interval a) (ad_last_sent a) (clock w) = true ->
  first_session_string (ad_user_id a) (db w) = Some s ->
  truthy s = true ->
  new_events w (snd (ad_body a w))
  = pass_events s (full_text (ad_text a)) (ad_photo a)
      (user_groups (ad_user_id a) (db w)) (provider w).
Proof.
  intros Hst Hs Hd Hf Ht. apply new_events_app.
  assert (H3 : hd false (store w) = false /\
               hd false (store (accessed w)) = false /\
               hd false (store (accessed (accessed w))) = false).
  { unfold accessed, set_store. cbn [store].
    destruct (store w) as [|b0 [|b1 [|b2 rest]]]; simpl in Hst |- *;
      repeat match goal with
             | b : bool |- _ => destruct b; try discriminate Hst
             end; repeat split; reflexivity. }
  destruct H3 as (H0 & H1 & H2).
  rewrite ad_body_run, H0, Hs, Hd, H1, H2, Hf, Ht. cbn [negb].
  destruct (user_groups (ad_user_id a) (db w)) as [|g gs] eqn:Eg.
  - cbn [snd pass_events]. rewrite app_nil_r. reflexivity.
  - unfold pass_world. rewrite Eg, fan_out_run. cbn [snd store].
    clear H0 H1 H2.
    match goal with
    | |- context [if hd false ?l then _ else _] => destruct (hd false l)
    end; reflexivity.
Qed.

Lemma sends_app evs evs' :
  sends (evs ++ evs') = (sends evs ++ sends evs')%list.
Proof.
  induction evs as [|e evs IH]; [reflexivity|].
  destruct e; simpl; rewrite IH; reflexivity.
Qed.

Lemma sends_pass_events s t p gs : forall rs,
  sends (pass_events s t p gs rs)
  = map (fun x : Z * string * string => (snd (fst x), t)) gs.
Proof.
  induction gs as [|[[i g] name] rest IH]; intros rs; [reflexivity|].
  cbn [pass_events map fst snd].
  assert (A : sends (after_send g (hd Delivered rs)) = [])
    by (destruct (hd Delivered rs); reflexivity).
  assert (S1 : forall tl,
            sends (send_event s g t p (hd Delivered rs) :: tl)
            = (g, t) :: sends tl).
  { intros tl. unfold send_event.
    destruct p as [ph|]; [destruct (truthy ph)|]; reflexivity. }
  rewrite S1, sends_app, A, IH. reflexivity.
Qed.

(** C8: for every job that passes the gates (a running subscription, due,
    a session; the store answering), the pass sends to the groups the store
    holds for the owner with [is_active = 1] when the body runs, each once
    and in the order of the table, whatever the job's text and photo are;
    nothing of the job itself decides the destinations. *)
Theorem pass_reaches_current_groups (a : ad) (w : world) (s : string) :
  forallb negb (firstn 3 (store w)) = true ->
  sub_active (ad_user_id a) (db w) (clock w) = true ->
  due (ad_interval a) (ad_last_sent a) (clock w) = true ->
  first_session_string (ad_user_id a) (db w) = Some s ->
  truthy s = true ->
  targets (new_events w (snd (ad_body a w)))
  = map g_group_id
      (filter (fun g => (g_user_id g =? ad_user_id a) && (g_is_active g =? 1))
              (groups (db w))).
Proof.
  intros Hst Hs Hd Hf Ht.
  rewrite (ad_body_pass_trace a w s Hst Hs Hd Hf Ht), targets_pass_events.
  apply map_group_ref.
Qed.

(** A group registered between two passes is a destination of the next. *)
Lemma insert_group_reaches_next_pass uid gid title d :
  map (fun x : Z * string * string => snd (fst x))
      (user_groups uid (insert_group uid gid title d))
  = (map (fun x : Z * string * string => snd (fst x)) (user_groups uid d)
     ++ [gid])%list.
Proof.
  rewrite !map_group_ref. unfold insert_group; simpl.
  rewrite filter_app, map_app. simpl. rewrite Z.eqb_refl. reflexivity.
Qed.

(** C9: for every job that passes the gates (a running subscription, due,
    a session; the store answering), each group of the owner is sent, once
    and in the order of the table, the job's text, a blank line and the
    tagline when the tagline is not empty, and the job's text as it is
    stored when the tagline is empty ([NULL] is formatted as [None] in the
    former case); the worker never changes the stored text or photo. *)
Theorem sent_text_carries_tagline
  (a : ad) (w : world) (s : string) (n : nat) :
  forallb negb (firstn 3 (store w)) = true ->
  sub_active (ad_user_id a) (db w) (clock w) = true ->
  due (ad_interval a) (ad_last_sent a) (clock w) = true ->
  first_session_string (ad_user_id a) (db w) = Some s ->
  truthy s = true ->
  sends (new_events w (snd (ad_body a w)))
  = map (fun g =>
           (g_group_id g,
            if truthy TAGLINE
            then Some (py_str (ad_text a) ++ newline ++ newline
                       ++ TAGLINE)%string
            else ad_text a))
        (filter (fun g => (g_user_id g =? ad_user_id a)
                          && (g_is_active g =? 1))
                (groups (db w))) /\
  map m_text (messages (db (snd (ads_worker n w))))
  = map m_text (messages (db w)) /\
  map m_photo_path (messages (db (snd (ads_worker n w))))
  = map m_photo_path (messages (db w)).
Proof.
  intros Hst Hs Hd Hf Ht. split.
  - rewrite (ad_body_pass_trace a w s Hst Hs Hd Hf Ht), sends_pass_events.
    unfold user_groups. rewrite map_map. reflexivity.
  - apply frozen_text. apply (frame_ads_worker n w).
Qed.

End Eligibility.

Lemma pass_only_when_eligible_witness :
  let w := Demo.world0 [Delivered; Throttled 3] [] in
  let a := Demo.ad1 in
  let wa := accessed w in
  (exists m, In m (messages (db w)) /\ a = ad_of_row m /\ m_active m = 1) /\
  (forall m, In m (messages (db w)) -> m_id m = ad_msg_id a ->
             m_active m = 1) /\
  (exists row s until,
     find_user (ad_user_id a) (db wa) = Some row /\
     u_paid_until row = Some s /\
     @fromisoformat Iso.codec s = Some (Naive until) /\ clock wa < until) /\
  (exists g, In g (groups (db wa)) /\ g_user_id g = ad_user_id a /\
             g_is_active g = 1) /\
  (exists acc, In acc (accounts (db wa)) /\ a_user_id acc = ad_user_id a /\
               a_is_active acc = 1 /\ a_session_string acc <> EmptyString).
Proof.
  intros w a wa.
  apply (@pass_only_when_eligible Iso.codec Iso.config w a wa).
  - simpl. repeat constructor; simpl; intuition discriminate.
  - exists [Demo.ad1; Demo.ad2], (accessed w).
    split; [reflexivity | apply visits_here].
  - vm_compute. discriminate.
Defined.

Lemma pass_reaches_current_groups_witness :
  let w := Demo.world0 [Delivered; Throttled 3] [] in
  let a := {| ad_msg_id := 1; ad_user_id := 7; ad_text := None;
              ad_photo := None; ad_interval := 60;
              ad_last_sent := None |} in
  targets (new_events w (snd (@ad_body Iso.codec Iso.config a w)))
  = map g_group_id
      (filter (fun g => (g_user_id g =? ad_user_id a)
                        && (g_is_active g =? 1))
              (groups (db w))).
Proof.
  intros w a.
  apply (@pass_reaches_current_groups Iso.codec Iso.config a w
           "1BVtsOKsession7").
  - reflexivity.
  - vm_compute. reflexivity.
  - reflexivity.
  - reflexivity.
  - reflexivity.
Defined.

Lemma sent_text_carries_tagline_witness :
  let w := Demo.world0 [Delivered; Failed "ChatWriteForbiddenError"] [] in
  let a := Demo.ad1 in
  sends (new_events w (snd (@ad_body Iso.codec Iso.config a w)))
  = map (fun g =>
           (g_group_id g,
            if truthy (@TAGLINE Iso.config)
            then Some (py_str (ad_text a) ++ newline ++ newline
                       ++ @TAGLINE Iso.config)%string
            else ad_text a))
        (filter (fun g => (g_user_id g =? ad_user_id a)
                          && (g_is_active g =? 1))
                (groups (db w))) /\
  map m_text (messages (db (snd (@ads_worker Iso.codec Iso.config 2 w))))
  = map m_text (messages (db w)) /\
  map m_photo_path
    (messages (db (snd (@ads_worker Iso.codec Iso.config 2 w))))
  = map m_photo_path (messages (db w)).
Proof.
  intros w a.
  apply (@sent_text_carries_tagline Iso.codec Iso.config a w
           "1BVtsOKsession7" 2).
  - reflexivity.
  - vm_compute. reflexivity.
  - reflexivity.
  - reflexivity.
  - reflexivity.
Defined.

Example demo_each_group_gets_the_text :
  let w := Demo.world0 [Delivered; Failed "ChatWriteForbiddenError"] [] in
  sends (new_events w (snd (@ad_body Iso.codec Iso.config Demo.ad1 w)))
  = [("@bozor",
      Some ("Salom" ++ newline ++ newline ++ "Auto reklama")%string);
     ("-1001234567890",
      Some ("Salom" ++ newline ++ newline ++ "Auto reklama")%string)].
Proof. vm_compute. reflexivity. Qed.

Example demo_null_text_is_sent :
  let w := Demo.world0 [] [] in
  let a := {| ad_msg_id := 1; ad_user_id := 7; ad_text := None;
              ad_photo := None; ad_interval := 60;
              ad_last_sent := None |} in
  sends (new_events w (snd (@ad_body Iso.codec Iso.config a w)))
  = [("@bozor",
      Some ("None" ++ newline ++ newline ++ "Auto reklama")%string);
     ("-1001234567890",
      Some ("None" ++ newline ++ newline ++ "Auto reklama")%string)].
Proof. vm_compute. reflexivity. Qed.

(** Between two passes the owner registers a group and another of his
    groups is switched off: the second pass goes to the groups as they are
    then. *)
Example demo_groups_change_between_passes :
  let w1 := Demo.world0 [] [] in
  let w2 := set_db
              (set_groups
                 (map (fun g => if g_id g =? 1
                                then {| g_id := g_id g;
                                        g_user_id := g_user_id g;
                                        g_group_id := g_group_id g;
                                        g_group_name := g_group_name g;
                                        g_is_active := 0 |}
                                else g)
                      (groups (insert_group 7 "@yangi" "Yangi" Demo.tables)))
                 Demo.tables)
              w1 in
  targets (new_events w1 (snd (@ad_body Iso.codec Iso.config Demo.ad1 w1)))
  = ["@bozor"; "-1001234567890"] /\
  targets (new_events w2 (snd (@ad_body Iso.codec Iso.config Demo.ad1 w2)))
  = ["-1001234567890"; "@yangi"].
Proof. vm_compute. split; reflexivity. Qed.

Example demo_text_with_tagline :
  texts (trace (snd (@ad_body Iso.codec Iso.config Demo.ad2
                       (Demo.world0 [] []))))
  = [Some ("Chegirma" ++ newline ++ newline ++ "Auto reklama")%string].
Proof. vm_compute. reflexivity. Qed.

Example demo_text_without_tagline :
  texts (trace (snd (@ad_body Iso.codec {| ADMIN_ID := 1; TAGLINE := EmptyString |}
                       Demo.ad2 (Demo.world0 [] []))))
  = [Some "Chegirma"].
Proof. vm_compute. reflexivity. Qed.

(** ** Failures inside a tick *)

Section Failure.
Context {dt : Datetime} {cfg : Config}.

(** C2, as amended: an error raised while one job is processed is caught
    at the boundary of the tick, not of the job: it is logged once, the jobs
    listed after the failing one are not processed in this tick (the tick
    ends in the world the failing job left, plus the log entry and the
    8 seconds of sleep), and the worker goes on with its next tick. *)
Theorem failure_ends_the_tick
  (w : world) (pre : list ad) (a : ad) (post : list ad)
  (w0 w1 w2 : world) (e : exn) :
  select_active_ads w = (Ret (pre ++ a :: post)%list, w0) ->
  for_ads pre w0 = (Ret tt, w1) ->
  ad_body a w1 = (Raise e, w2) ->
  tick w = (Ret tt, snd (sleep 8000000 (emit (EvErrorLoop e) w2))) /\
  forall n,
    ticks (S n) w = ticks n (snd (sleep 8000000 (emit (EvErrorLoop e) w2))).
Proof.
  intros Hsel Hpre Hbody.
  assert (T : tick w
              = (Ret tt, snd (sleep 8000000 (emit (EvErrorLoop e) w2)))).
  { rewrite tick_run, (select_then_for_ads _ _ _ Hsel).
    rewrite (for_ads_app _ _ _ _ Hpre), for_ads_cons, Hbody. reflexivity. }
  split; [exact T|].
  intros n. simpl. unfold bind. rewrite T. reflexivity.
Qed.

End Failure.

Lemma failure_ends_the_tick_witness :
  let w := Demo.world0 [] [false; false; true] in
  let w2 := snd (@ad_body Iso.codec Iso.config Demo.ad1 (accessed w)) in
  @tick Iso.codec Iso.config w
  = (Ret tt, snd (sleep 8000000 (emit (EvErrorLoop sqlite_error) w2))) /\
  forall n,
    @ticks Iso.codec Iso.config (S n) w
    = @ticks Iso.codec Iso.config n
        (snd (sleep 8000000 (emit (EvErrorLoop sqlite_error) w2))).
Proof.
  intros w w2.
  apply (@failure_ends_the_tick Iso.codec Iso.config w [] Demo.ad1
           [Demo.ad2] (accessed w) (accessed w) w2 sqlite_error);
    reflexivity.
Defined.

(** The claim C2 as it stands fails: the store fails while the groups of
    the first job are read; the second job, which the same tick would have
    sent had it come to it, is not processed: the tick logs the error,
    sleeps, and has sent and written nothing. *)
Lemma job_isolation_counterexample :
  let w := Demo.world0 [] [false; false; true] in
  let w2 := snd (@ad_body Iso.codec Iso.config Demo.ad1 (accessed w)) in
  fst (@select_active_ads w) = Ret [Demo.ad1; Demo.ad2] /\
  fst (@ad_body Iso.codec Iso.config Demo.ad1 (accessed w))
  = Raise sqlite_error /\
  fst (@ad_body Iso.codec Iso.config Demo.ad2 w2) = Ret PassDone /\
  trace (snd (@tick Iso.codec Iso.config w))
  = [EvErrorLoop sqlite_error; EvSleep 8000000] /\
  db (snd (@tick Iso.codec Iso.config w)) = db w.
Proof. vm_compute. repeat split. Qed.

(** ** New users *)

Lemma find_app_none {A} (f : A -> bool) l x :
  find f l = None -> find f (l ++ [x]) = (if f x then Some x else None).
Proof.
  induction l as [|y l IH]; simpl; [reflexivity|].
  destruct (f y); [discriminate | exact IH].
Qed.

Section NewUser.
Context {dt : Datetime} {cfg : Config}.

Lemma ensure_user_run uid w :
  find_user uid (db w) = None ->
  ensure_user uid w
  = if hd false (store w) then (Raise sqlite_error, accessed w)
    else (Ret tt,
          set_db (set_users
                    (users (db w) ++
                     [{| u_user_id := uid;
                         u_is_admin := if uid =? ADMIN_ID then 1 else 0;
                         u_paid_until := Some (isoformat (clock w));
                         u_balance := 0 |}]) (db w))
                 (accessed w)).
Proof.
  intros F. unfold ensure_user, bind, db_access, read_db, accessed.
  destruct (hd false (store w)); [reflexivity|].
  cbn [db set_store]. rewrite F. reflexivity.
Qed.

(** C10: a user registered at the instant [clock w] gets that instant as
    [paid_until]; as long as that row stays as it was created, at every
    later time the subscription check answers [False] and the body of the
    loop leaves each of the user's ads at its first gate, with nothing sent
    and nothing written. *)
Theorem fresh_user_is_never_admitted
  (uid : Z) (w w2 : world) (a : ad) :
  find_user uid (db w) = None ->
  fst (ensure_user uid w) = Ret tt ->
  fromisoformat (isoformat (clock w)) = Some (Naive (clock w)) ->
  find_user uid (db w2) = find_user uid (db (snd (ensure_user uid w))) ->
  clock w <= clock w2 ->
  ad_user_id a = uid ->
  (exists row,
     find_user uid (db (snd (ensure_user uid w))) = Some row /\
     u_paid_until row = Some (isoformat (clock w))) /\
  fst (has_active_sub uid w2)
  = (if hd false (store w2) then Raise sqlite_error else Ret false) /\
  fst (ad_body a w2)
  = (if hd false (store w2) then Raise sqlite_error
     else Ret NoSubscription) /\
  snd (ad_body a w2) = accessed w2.
Proof.
  intros Hnew Hok Hrt Hrow Hclock Ha.
  rewrite (ensure_user_run _ _ Hnew) in Hok, Hrow |- *.
  destruct (hd false (store w)); [discriminate Hok|].
  cbn [snd db set_db] in Hrow |- *.
  unfold find_user in Hrow at 2. unfold find_user at 1.
  cbn [users set_users] in Hrow |- *.
  rewrite (find_app_none _ _ _ Hnew) in Hrow |- *.
  cbn [u_user_id] in Hrow |- *. rewrite Z.eqb_refl in Hrow |- *.
  assert (S : sub_active uid (db w2) (clock w2) = false).
  { unfold sub_active. rewrite Hrow. cbn [u_paid_until].
    unfold paid_after. rewrite Hrt.
    apply andb_false_iff. right. rewrite Z.gtb_ltb. apply Z.ltb_ge.
    exact Hclock. }
  split; [eexists; split; reflexivity|].
  split.
  - rewrite has_active_sub_run, S. reflexivity.
  - rewrite ad_body_run, Ha, S. cbn [negb].
    destruct (hd false (store w2)); split; reflexivity.
Qed.

End NewUser.

Lemma fresh_user_is_never_admitted_witness :
  let w := Demo.world0 [] [] in
  let w1 := snd (@ensure_user Iso.codec Iso.config 9 w) in
  let a := {| ad_msg_id := 3; ad_user_id := 9; ad_text := Some "Yangi";
              ad_photo := None; ad_interval := 15; ad_last_sent := None |} in
  let w2 := set_clock (Demo.t0 + 86400000000) w1 in
  (exists row,
     find_user 9 (db w1) = Some row /\
     u_paid_until row = Some (@isoformat Iso.codec (clock w))) /\
  fst (@has_active_sub Iso.codec 9 w2)
  = (if hd false (store w2) then Raise sqlite_error else Ret false) /\
  fst (@ad_body Iso.codec Iso.config a w2)
  = (if hd false (store w2) then Raise sqlite_error
     else Ret NoSubscription) /\
  snd (@ad_body Iso.codec Iso.config a w2) = accessed w2.
Proof.
  intros w w1 a w2.
  apply (@fresh_user_is_never_admitted Iso.codec Iso.config 9 w w2 a).
  - vm_compute. reflexivity.
  - vm_compute. reflexivity.
  - vm_compute. reflexivity.
  - vm_compute. reflexivity.
  - vm_compute. discriminate.
  - reflexivity.
Defined.

(** ** Users: registration, balance, subscription *)

Lemma find_user_set_users us d uid :
  find_user uid (set_users us d) = find (fun u => u_user_id u =? uid) us.
Proof. reflexivity. Qed.

Lemma find_none_not_in uid us :
  find (fun u => u_user_id u =? uid) us = None ->
  ~ In uid (map u_user_id us).
Proof.
  induction us as [|u us IH]; simpl; intros F I; [exact I|].
  destruct (u_user_id u =? uid) eqn:E; [discriminate|].
  apply Z.eqb_neq in E. destruct I as [I|I]; [contradiction|].
  exact (IH F I).
Qed.

(** The first row of an id after an UPDATE on that id. *)
Lemma find_map_update (f : user_row -> user_row) uid us :
  (forall u, u_user_id (f u) = u_user_id u) ->
  find (fun u => u_user_id u =? uid)
       (map (fun u => if u_user_id u =? uid then f u else u) us)
  = option_map f (find (fun u => u_user_id u =? uid) us).
Proof.
  intros Hf. induction us as [|u us IH]; simpl; [reflexivity|].
  destruct (u_user_id u =? uid) eqn:E.
  - rewrite Hf, E. reflexivity.
  - rewrite E. exact IH.
Qed.

Lemma find_map_update_other (f : user_row -> user_row) uid v us :
  v <> uid ->
  (forall u, u_user_id (f u) = u_user_id u) ->
  find (fun u => u_user_id u =? v)
       (map (fun u => if u_user_id u =? uid then f u else u) us)
  = find (fun u => u_user_id u =? v) us.
Proof.
  intros N Hf. induction us as [|u us IH]; simpl; [reflexivity|].
  destruct (u_user_id u =? uid) eqn:E.
  - rewrite Hf. apply Z.eqb_eq in E.
    destruct (u_user_id u =? v) eqn:E'; [apply Z.eqb_eq in E'; congruence|].
    exact IH.
  - destruct (u_user_id u =? v); [reflexivity | exact IH].
Qed.

Lemma map_update_absent (f : user_row -> user_row) uid us :
  find (fun u => u_user_id u =? uid) us = None ->
  map (fun u => if u_user_id u =? uid then f u else u) us = us.
Proof.
  induction us as [|u us IH]; simpl; [reflexivity|].
  destruct (u_user_id u =? uid); [discriminate|].
  intros F. rewrite (IH F). reflexivity.
Qed.

Lemma set_users_same d : set_users (users d) d = d.
Proof. destruct d; reflexivity. Qed.

Section Users.
Context {dt : Datetime} {cfg : Config}.

Lemma ensure_user_run_known uid w row :
  find_user uid (db w) = Some row ->
  ensure_user uid w
  = (if hd false (store w) then Raise sqlite_error else Ret tt, accessed w).
Proof.
  intros F. unfold ensure_user, bind, db_access, read_db, accessed.
  destruct (hd false (store w)); [reflexivity|].
  cbn [db set_store]. rewrite F. reflexivity.
Qed.

(** X1: for a user the table holds, [ensure_user] leaves all four tables
    as they are, whatever the row holds: a repeated [/start] never resets a
    [paid_until] or a balance, and it adds no row; and whenever
    [ensure_user] has gone through, the user has a row. *)
Theorem ensure_user_registers_once (uid : Z) (w : world) (row : user_row) :
  find_user uid (db w) = Some row ->
  db (snd (ensure_user uid w)) = db w /\
  find_user uid (db (snd (ensure_user uid w))) = Some row /\
  forall v w0, fst (ensure_user v w0) = Ret tt ->
               exists r, find_user v (db (snd (ensure_user v w0))) = Some r.
Proof.
  intros F. rewrite (ensure_user_run_known _ _ _ F). cbn [snd].
  split; [reflexivity|]. split; [exact F|].
  intros v w0 Hok.
  destruct (find_user v (db w0)) as [r|] eqn:F0.
  - exists r. rewrite (ensure_user_run_known _ _ _ F0). exact F0.
  - rewrite (ensure_user_run _ _ F0) in Hok |- *.
    destruct (hd false (store w0)); [discriminate Hok|].
    cbn [snd db set_db]. rewrite find_user_set_users.
    rewrite (find_app_none _ _ _ F0). cbn [u_user_id].
    rewrite Z.eqb_refl. eexists. reflexivity.
Qed.

(** X2: [ensure_user] keeps the user ids of the table distinct: it adds a
    row only for an id the table does not hold. *)
Theorem ensure_user_keeps_ids_unique (uid : Z) (w : world) :
  NoDup (map u_user_id (users (db w))) ->
  NoDup (map u_user_id (users (db (snd (ensure_user uid w))))).
Proof.
  intros ND. destruct (find_user uid (db w)) as [row|] eqn:F.
  - rewrite (ensure_user_run_known _ _ _ F). exact ND.
  - rewrite (ensure_user_run _ _ F).
    destruct (hd false (store w)); [exact ND|].
    cbn [snd db set_db users set_users]. rewrite map_app. simpl.
    apply NoDup_app; [exact ND | repeat constructor; intros [] |].
    intros x I [<-|[]]. exact (find_none_not_in _ _ F I).
Qed.

(** X3: when the store answers, [has_active_sub] never raises and answers
    [True] exactly when the user's row holds a non-empty [paid_until] that
    reads as a naive time strictly later than now; in every other case (an
    unknown user, a [NULL], empty or unreadable [paid_until], one with a
    UTC offset, one that is now or past) it answers [False]. *)
Theorem has_active_sub_fails_closed (uid : Z) (w : world) :
  hd false (store w) = false ->
  (fst (has_active_sub uid w) = Ret true /\
   exists row s until,
     find_user uid (db w) = Some row /\ u_paid_until row = Some s /\
     truthy s = true /\ fromisoformat s = Some (Naive until) /\
     clock w < until) \/
  (fst (has_active_sub uid w) = Ret false /\
   (find_user uid (db w) = None \/
    exists row,
      find_user uid (db w) = Some row /\
      (u_paid_until row = None \/
       exists s,
         u_paid_until row = Some s /\
         (truthy s = false \/
          fromisoformat s = None \/
          (exists t o, fromisoformat s = Some (Aware t o)) \/
          (exists until, fromisoformat s = Some (Naive until) /\
                         until <= clock w))))).
Proof.
  intros Hst. rewrite has_active_sub_run, Hst. cbn [fst].
  unfold sub_active, paid_after.
  destruct (find_user uid (db w)) as [row|]; [|right; auto].
  destruct (u_paid_until row) as [s|] eqn:Eu;
    [|right; split; [reflexivity|]; right; exists row; auto].
  destruct (truthy s) eqn:Ht; cbn [andb];
    [|right; split; [reflexivity|]; right; exists row;
      split; [reflexivity|]; right; exists s; auto].
  destruct (fromisoformat s) as [[until|t o]|] eqn:Ep.
  - destruct (Z.gtb_spec until (clock w)) as [Hgt|Hle].
    + left. split; [reflexivity|]. exists row, s, until.
      repeat split; try reflexivity; try assumption.
    + right. split; [reflexivity|]. right. exists row.
      split; [reflexivity|]. right. exists s. split; [exact Eu|].
      right. right. right. exists until. split; [exact Ep | exact Hle].
  - right. split; [reflexivity|]. right. exists row.
    split; [reflexivity|]. right. exists s. split; [exact Eu|].
    right. right. left. exists t, o. exact Ep.
  - right. split; [reflexivity|]. right. exists row.
    split; [reflexivity|]. right. exists s. split; [exact Eu|].
    right. left. exact Ep.
Qed.

End Users.

Lemma ensure_user_registers_once_witness :
  let w := snd (add_user_balance 7 5000 (Demo.world0 [] [])) in
  let row := {| u_user_id := 7; u_is_admin := 0;
                u_paid_until := Some "2024-03-01T12:30:05";
                u_balance := 5000 |} in
  db (snd (@ensure_user Iso.codec Iso.config 7 w)) = db w /\
  find_user 7 (db (snd (@ensure_user Iso.codec Iso.config 7 w)))
  = Some row /\
  forall v w0,
    fst (@ensure_user Iso.codec Iso.config v w0) = Ret tt ->
    exists r,
      find_user v (db (snd (@ensure_user Iso.codec Iso.config v w0)))
      = Some r.
Proof.
  intros w row.
  apply (@ensure_user_registers_once Iso.codec Iso.config 7 w row).
  reflexivity.
Defined.

Lemma has_active_sub_fails_closed_witness :
  let w := set_db (set_users
                     [{| u_user_id := 7; u_is_admin := 0;
                         u_paid_until := Some "ertaga"; u_balance := 0 |}]
                     Demo.tables)
             (Demo.world0 [] []) in
  fst (@has_active_sub Iso.codec 7 w) = Ret false.
Proof.
  intros w.
  destruct (@has_active_sub_fails_closed Iso.codec 7 w eq_refl)
    as [[H _]|[H _]]; [discriminate H | exact H].
Defined.

Lemma ensure_user_keeps_ids_unique_witness :
  NoDup (map u_user_id
           (users (db (snd (@ensure_user Iso.codec Iso.config 9
                              (Demo.world0 [] [])))))).
Proof.
  apply (@ensure_user_keeps_ids_unique Iso.codec Iso.config 9
           (Demo.world0 [] [])).
  simpl. repeat constructor; simpl; intuition discriminate.
Defined.

Section Balance.
Context {dt : Datetime} {cfg : Config}.


Lemma add_user_balance_run uid amount w :
  add_user_balance uid amount w
  = if hd false (store w) then (Raise sqlite_error, accessed w)
    else if (amount <? min_sqlite_int) || (max_sqlite_int <? amount)
         then (Raise (Exception "OverflowError"), accessed w)
         else (Ret tt,
               set_db (set_users
                         (map (fun u => if u_user_id u =? uid
                                        then with_balance
                                               (u_balance u + amount) u
                                        else u)
                              (users (db w))) (db w))
                      (accessed w)).
Proof.
  unfold add_user_balance, bind, db_access, read_db, write_db, raise,
    accessed.
  destruct (hd false (store w)); [reflexivity|].
  destruct ((amount <? min_sqlite_int) || (max_sqlite_int <? amount));
    reflexivity.
Qed.

Lemma amount_in_range amount :
  min_sqlite_int <= amount <= max_sqlite_int ->
  (amount <? min_sqlite_int) || (max_sqlite_int <? amount) = false.
Proof.
  intros H. destruct (Z.ltb_spec amount min_sqlite_int); [lia|].
  destruct (Z.ltb_spec max_sqlite_int amount); [lia|]. reflexivity.
Qed.



(** X5: adding to a balance changes no subscription: for every user
    [has_active_sub] answers on the tables after [add_user_balance] what it
    answers on the tables before. *)
Theorem balance_buys_no_subscription (uid amount v : Z) (w w' : world) :
  fst (has_active_sub v
         (set_db (db (snd (add_user_balance uid amount w))) w'))
  = fst (has_active_sub v (set_db (db w) w')).
Proof.
  rewrite !has_active_sub_run. cbn [store set_db db clock fst].
  destruct (hd false (store w')); [reflexivity|]. f_equal.
  rewrite add_user_balance_run.
  destruct (hd false (store w)); [reflexivity|].
  destruct ((amount <? min_sqlite_int) || (max_sqlite_int <? amount));
    [reflexivity|].
  cbn [snd db set_db]. unfold sub_active. rewrite find_user_set_users.
  destruct (Z.eq_dec v uid) as [->|N].
  - rewrite (find_map_update (fun u => with_balance (u_balance u + amount) u))
      by reflexivity.
    fold (find_user uid (db w)).
    destruct (find_user uid (db w)) as [row|]; reflexivity.
  - rewrite (find_map_update_other
               (fun u => with_balance (u_balance u + amount) u))
      by (try exact N; reflexivity).
    reflexivity.
Qed.

End Balance.


Example demo_balance_after_add :
  fst ((add_user_balance 7 5000 ;; get_user_balance 7)
         (Demo.world0 [] []))
  = Ret 5000 /\
  fst (add_user_balance 7 9223372036854775808 (Demo.world0 [] []))
  = Raise (Exception "OverflowError").
Proof. vm_compute. split; reflexivity. Qed.

(** ** Subscriptions *)

Section Subscription.
Context {dt : Datetime} {cfg : Config}.

Lemma activate_subscription_run uid days w :
  activate_subscription uid days w
  = if hd false (store w) then (Raise sqlite_error, accessed w)
    else match new_until match find_user uid (db w) with
                         | Some row => u_paid_until row
                         | None => None
                         end days (clock w) with
         | None => (Raise (Exception "OverflowError"), accessed w)
         | Some t =>
             (Ret tt,
              set_db (set_users
                        (map (fun u => if u_user_id u =? uid
                                       then with_paid_until
                                              (Some (isoformat t)) u
                                       else u)
                             (users (db w))) (db w))
                     (accessed w))
         end.
Proof.
  unfold activate_subscription, bind, db_access, read_db, utcnow, write_db,
    raise, accessed.
  destruct (hd false (store w)); [reflexivity|].
  cbn [db clock set_store].
  destruct (new_until _ days (clock w)); reflexivity.
Qed.

Lemma from_now_some days now t :
  from_now days now = Some t ->
  t = now + days * 86400000000 /\ -999999999 <= days <= 999999999 /\
  0 <= t <= max_datetime.
Proof.
  unfold from_now, timedelta_days, datetime_add. intros H.
  destruct (Z.leb_spec (-999999999) days); [|discriminate].
  destruct (Z.leb_spec days 999999999); [|discriminate].
  cbn [andb] in H.
  destruct (Z.leb_spec 0 (now + days * 86400000000)); [|discriminate].
  destruct (Z.leb_spec (now + days * 86400000000) max_datetime);
    [|discriminate].
  injection H as <-. lia.
Qed.

Lemma from_now_in_range days now :
  -999999999 <= days <= 999999999 ->
  0 <= now + days * 86400000000 <= max_datetime ->
  from_now days now = Some (now + days * 86400000000).
Proof.
  intros Hd Hr. unfold from_now, timedelta_days, datetime_add.
  destruct (Z.leb_spec (-999999999) days); [|lia].
  destruct (Z.leb_spec days 999999999); [|lia]. cbn [andb].
  destruct (Z.leb_spec 0 (now + days * 86400000000)); [|lia].
  destruct (Z.leb_spec (now + days * 86400000000) max_datetime); [|lia].
  reflexivity.
Qed.

(** Whatever the old end was, the new one is at least [days] from now. *)
Lemma new_until_lower_bound p days now t :
  new_until p days now = Some t ->
  0 <= days -> now + days * 86400000000 <= t.
Proof.
  unfold new_until. intros H Hd.
  assert (F : from_now days now = Some t -> now + days * 86400000000 <= t).
  { intros E. apply from_now_some in E. lia. }
  destruct p as [s|]; [|exact (F H)].
  destruct (truthy s); [|exact (F H)].
  destruct (fromisoformat s) as [[cur|cur o]|];
    [|exact (F H)|exact (F H)].
  destruct (Z.gtb_spec cur now) as [Hgt|]; [|exact (F H)].
  destruct (timedelta_days days) as [span|] eqn:Et; [|exact (F H)].
  assert (span = days * 86400000000).
  { unfold timedelta_days in Et.
    destruct ((-999999999 <=? days) && (days <=? 999999999));
      [injection Et as <-; reflexivity | discriminate]. }
  unfold datetime_add in H.
  destruct ((0 <=? cur + span) && (cur + span <=? max_datetime));
    [|exact (F H)].
  injection H as <-. lia.
Qed.

(** When the subscription is not active now, the days count from now. *)
Lemma new_until_lapsed uid d days now :
  sub_active uid d now = false ->
  new_until match find_user uid d with
            | Some row => u_paid_until row
            | None => None
            end days now
  = from_now days now.
Proof.
  unfold sub_active, new_until, paid_after. intros H.
  destruct (find_user uid d) as [row|]; [|reflexivity].
  destruct (u_paid_until row) as [s|]; [|reflexivity].
  destruct (truthy s); [|reflexivity]. cbn [andb] in H.
  destruct (fromisoformat s) as [[cur|cur o]|]; try reflexivity.
  rewrite H. reflexivity.
Qed.

(** X6: after [activate_subscription] has gone through for a user of the
    table with at least one day, [has_active_sub] answers [True] for that
    user at every time earlier than [days] days after the activation,
    provided the codec reads back the end it wrote. *)
Theorem subscription_runs_for_the_days_bought
  (uid days : Z) (w w2 : world) (row : user_row) :
  find_user uid (db w) = Some row ->
  1 <= days ->
  fst (activate_subscription uid days w) = Ret tt ->
  (forall t, new_until (u_paid_until row) days (clock w) = Some t ->
             truthy (isoformat t) = true /\
             fromisoformat (isoformat t) = Some (Naive t)) ->
  db w2 = db (snd (activate_subscription uid days w)) ->
  hd false (store w2) = false ->
  clock w2 < clock w + days * 86400000000 ->
  fst (has_active_sub uid w2) = Ret true.
Proof.
  intros F Hd Hok Hrt Hdb Hst Hclock.
  rewrite activate_subscription_run, F in Hok, Hdb.
  destruct (hd false (store w)); [discriminate Hok|].
  destruct (new_until (u_paid_until row) days (clock w)) as [t|] eqn:En;
    [|discriminate Hok].
  destruct (Hrt t eq_refl) as [Ht Hp].
  assert (Hlb := new_until_lower_bound _ _ _ _ En ltac:(lia)).
  cbn [snd db set_db] in Hdb.
  rewrite has_active_sub_run, Hst. cbn [fst]. f_equal.
  unfold sub_active.
  rewrite Hdb, find_user_set_users,
    (find_map_update (with_paid_until (Some (isoformat t))))
    by reflexivity.
  fold (find_user uid (db w)). rewrite F.
  cbn [option_map with_paid_until u_paid_until].
  unfold paid_after. rewrite Ht, Hp. cbn [andb].
  apply Z.gtb_lt. lia.
Qed.

(** X7: renewing a subscription that is still running adds the days to its
    current end, not to now: the time left is kept. *)
Theorem renewal_extends_current_end
  (uid days : Z) (w : world) (row : user_row) (s : string) (cur : Z) :
  find_user uid (db w) = Some row ->
  u_paid_until row = Some s ->
  truthy s = true ->
  fromisoformat s = Some (Naive cur) ->
  clock w < cur ->
  -999999999 <= days <= 999999999 ->
  0 <= cur + days * 86400000000 <= max_datetime ->
  hd false (store w) = false ->
  fst (activate_subscription uid days w) = Ret tt /\
  find_user uid (db (snd (activate_subscription uid days w)))
  = Some (with_paid_until
            (Some (isoformat (cur + days * 86400000000))) row).
Proof.
  intros F Eu Ht Hp Hlt Hd Hr Hst.
  rewrite activate_subscription_run, Hst, F, Eu.
  assert (En : new_until (Some s) days (clock w)
               = Some (cur + days * 86400000000)).
  { unfold new_until, timedelta_days, datetime_add. rewrite Ht, Hp.
    destruct (Z.gtb_spec cur (clock w)); [|lia].
    destruct (Z.leb_spec (-999999999) days); [|lia].
    destruct (Z.leb_spec days 999999999); [|lia]. cbn [andb].
    destruct (Z.leb_spec 0 (cur + days * 86400000000)); [|lia].
    destruct (Z.leb_spec (cur + days * 86400000000) max_datetime); [|lia].
    reflexivity. }
  rewrite En. split; [reflexivity|].
  cbn [snd db set_db]. rewrite find_user_set_users, find_map_update
    by reflexivity.
  fold (find_user uid (db w)). rewrite F. reflexivity.
Qed.

(** X8: activating a subscription that is not running now (never paid,
    expired, or with an end that cannot be read) counts the days from
    now. *)
Theorem lapsed_subscription_restarts_from_now
  (uid days : Z) (w : world) (row : user_row) :
  find_user uid (db w) = Some row ->
  sub_active uid (db w) (clock w) = false ->
  -999999999 <= days <= 999999999 ->
  0 <= clock w + days * 86400000000 <= max_datetime ->
  hd false (store w) = false ->
  fst (activate_subscription uid days w) = Ret tt /\
  find_user uid (db (snd (activate_subscription uid days w)))
  = Some (with_paid_until
            (Some (isoformat (clock w + days * 86400000000))) row).
Proof.
  intros F Hs Hd Hr Hst.
  assert (En := new_until_lapsed uid (db w) days (clock w) Hs).
  rewrite (from_now_in_range _ _ Hd Hr) in En.
  rewrite activate_subscription_run, Hst, En.
  split; [reflexivity|].
  cbn [snd db set_db]. rewrite find_user_set_users, find_map_update
    by reflexivity.
  fold (find_user uid (db w)). rewrite F. reflexivity.
Qed.

(** X9: [activate_subscription] writes one thing, the [paid_until] of the
    rows of its user: accounts, groups and messages, the ids, admin flags
    and balances of all users, and the whole row of every other user are
    as before; for a user the table does not hold, nothing changes at
    all. *)
Theorem activation_writes_one_paid_until (uid days : Z) (w : world) :
  let d' := db (snd (activate_subscription uid days w)) in
  accounts d' = accounts (db w) /\
  groups d' = groups (db w) /\
  messages d' = messages (db w) /\
  map (fun u => (u_user_id u, u_is_admin u, u_balance u)) (users d')
  = map (fun u => (u_user_id u, u_is_admin u, u_balance u)) (users (db w)) /\
  (forall v, v <> uid -> find_user v d' = find_user v (db w)) /\
  (find_user uid (db w) = None -> d' = db w).
Proof.
  intros d'. subst d'. rewrite activate_subscription_run.
  destruct (hd false (store w)); [repeat split; reflexivity|].
  destruct (new_until _ days (clock w)) as [t|];
    [|repeat split; reflexivity].
  cbn [snd db set_db]. repeat split.
  - cbn [users set_users]. rewrite map_map. apply map_ext.
    intros u. destruct (u_user_id u =? uid); reflexivity.
  - intros v N. rewrite find_user_set_users.
    apply find_map_update_other; [exact N | reflexivity].
  - intros F. rewrite map_update_absent by exact F. apply set_users_same.
Qed.

(** X10: a number of days no [timedelta] can hold (more than 999999999)
    makes [activate_subscription] raise [OverflowError]; nothing is
    written. *)
Theorem activation_overflow_writes_nothing (uid days : Z) (w : world) :
  999999999 < days ->
  db (snd (activate_subscription uid days w)) = db w /\
  (hd false (store w) = false ->
   fst (activate_subscription uid days w)
   = Raise (Exception "OverflowError")).
Proof.
  intros Hd.
  assert (Hf : forall now, from_now days now = None).
  { intros now. unfold from_now, timedelta_days.
    destruct (Z.leb_spec days 999999999); [lia|].
    rewrite andb_false_r. reflexivity. }
  assert (En : forall p, new_until p days (clock w) = None).
  { intros p. unfold new_until. rewrite Hf.
    destruct p as [s|]; [|reflexivity].
    destruct (truthy s); [|reflexivity].
    destruct (fromisoformat s) as [[cur|cur o]|]; try reflexivity.
    destruct (cur >? clock w); [|reflexivity].
    unfold timedelta_days.
    destruct (Z.leb_spec days 999999999); [lia|].
    rewrite andb_false_r. reflexivity. }
  rewrite activate_subscription_run, En.
  destruct (hd false (store w)); split; try reflexivity.
  intros; discriminate.
Qed.

End Subscription.

Lemma subscription_runs_for_the_days_bought_witness :
  let w := Demo.world0 [] [] in
  let w2 := set_clock (Demo.t0 + 86399000000)
              (snd (@activate_subscription Iso.codec 7 1 w)) in
  fst (@has_active_sub Iso.codec 7 w2) = Ret true.
Proof.
  intros w w2.
  apply (@subscription_runs_for_the_days_bought Iso.codec 7 1 w w2
           {| u_user_id := 7; u_is_admin := 0;
              u_paid_until := Some "2024-03-01T12:30:05";
              u_balance := 0 |}).
  - reflexivity.
  - lia.
  - vm_compute. reflexivity.
  - intros t H. vm_compute in H. injection H as <-.
    split; vm_compute; reflexivity.
  - reflexivity.
  - reflexivity.
  - vm_compute. reflexivity.
Defined.

Lemma renewal_extends_current_end_witness :
  let w := Demo.world0 [] [] in
  let row := {| u_user_id := 7; u_is_admin := 0;
                u_paid_until := Some "2024-03-01T12:30:05";
                u_balance := 0 |} in
  let cur := Iso.to_us 2024 3 1 12 30 5 0 in
  fst (@activate_subscription Iso.codec 7 7 w) = Ret tt /\
  find_user 7 (db (snd (@activate_subscription Iso.codec 7 7 w)))
  = Some (with_paid_until
            (Some (@isoformat Iso.codec (cur + 7 * 86400000000))) row).
Proof.
  intros w row cur.
  apply (@renewal_extends_current_end Iso.codec 7 7 w row
           "2024-03-01T12:30:05" cur);
    try reflexivity; vm_compute; split; intros; discriminate.
Defined.

Example demo_renewal_text :
  option_map u_paid_until
    (find_user 7 (db (snd (@activate_subscription Iso.codec 7 7
                             (Demo.world0 [] [])))))
  = Some (Some "2024-03-08T12:30:05").
Proof. vm_compute. reflexivity. Qed.

Lemma lapsed_subscription_restarts_from_now_witness :
  let w := snd (@ensure_user Iso.codec Iso.config 9
                  (Demo.world0 [] [])) in
  let row := {| u_user_id := 9; u_is_admin := 0;
                u_paid_until := Some "2024-02-29T12:30:05";
                u_balance := 0 |} in
  fst (@activate_subscription Iso.codec 9 30 w) = Ret tt /\
  find_user 9 (db (snd (@activate_subscription Iso.codec 9 30 w)))
  = Some (with_paid_until
            (Some (@isoformat Iso.codec (clock w + 30 * 86400000000)))
            row).
Proof.
  intros w row.
  apply (@lapsed_subscription_restarts_from_now Iso.codec 9 30 w row).
  - vm_compute. reflexivity.
  - vm_compute. reflexivity.
  - lia.
  - vm_compute. split; intros; discriminate.
  - reflexivity.
Defined.

Lemma activation_overflow_writes_nothing_witness :
  let w := Demo.world0 [] [] in
  db (snd (@activate_subscription Iso.codec 7 1000000000 w)) = db w /\
  (hd false (store w) = false ->
   fst (@activate_subscription Iso.codec 7 1000000000 w)
   = Raise (Exception "OverflowError")).
Proof.
  intros w.
  apply (@activation_overflow_writes_nothing Iso.codec 7 1000000000 w).
  lia.
Defined.

(** ** Accounts *)

Lemma first_session_string_set_accounts uid acs d :
  first_session_string uid (set_accounts acs d)
  = match filter (fun a => (a_user_id a =? uid) && (a_is_active a =? 1)) acs
    with
    | a :: _ => Some (a_session_string a)
    | [] => None
    end.
Proof. reflexivity. Qed.

Lemma set_accounts_same d : set_accounts (accounts d) d = d.
Proof. destruct d; reflexivity. Qed.

Lemma no_active_account_left acc_id uid l :
  (forall c, In c l -> a_user_id c = uid -> a_is_active c = 1 ->
             a_id c = acc_id) ->
  filter (fun a => (a_user_id a =? uid) && (a_is_active a =? 1))
         (map (fun a => if (a_id a =? acc_id) && (a_user_id a =? uid)
                        then deactivated a else a) l)
  = [].
Proof.
  induction l as [|c l IH]; intros Honly; [reflexivity|].
  simpl. rewrite IH by (intros b I; apply Honly; right; exact I).
  destruct (a_id c =? acc_id) eqn:E1;
    destruct (a_user_id c =? uid) eqn:E2; cbn [andb].
  - cbn [deactivated a_user_id a_is_active]. rewrite E2. reflexivity.
  - rewrite E2. reflexivity.
  - rewrite E2. cbn [andb].
    destruct (a_is_active c =? 1) eqn:E3; [|reflexivity].
    apply Z.eqb_eq in E2. apply Z.eqb_eq in E3. apply Z.eqb_neq in E1.
    exfalso. apply E1.
    apply Honly; [left; reflexivity | exact E2 | exact E3].
  - rewrite E2. reflexivity.
Qed.

Section Accounts.
Context {dt : Datetime} {cfg : Config}.

Lemma delete_account_run acc_id uid w :
  delete_account acc_id uid w
  = if hd false (store w) then (Raise sqlite_error, accessed w)
    else (Ret tt,
          set_db (set_accounts
                    (map (fun a => if (a_id a =? acc_id)
                                      && (a_user_id a =? uid)
                                   then deactivated a else a)
                         (accounts (db w))) (db w))
                 (accessed w)).
Proof.
  unfold delete_account, bind, db_access, read_db, write_db, accessed.
  destruct (hd false (store w)); reflexivity.
Qed.

Lemma get_user_accounts_run uid w :
  get_user_accounts uid w
  = (if hd false (store w) then Raise sqlite_error
     else Ret (map (fun a => (a_id a, a_phone a))
                   (filter (fun a => (a_user_id a =? uid)
                                     && (a_is_active a =? 1))
                           (accounts (db w)))),
     accessed w).
Proof.
  unfold get_user_accounts, bind, db_access, read_db, accessed.
  destruct (hd false (store w)); reflexivity.
Qed.

(** X11: [delete_account] with the id of an account that is not the
    caller's changes nothing: a user cannot switch off the account of
    another user. *)
Theorem delete_account_only_own (acc_id uid : Z) (w : world) :
  (forall a, In a (accounts (db w)) -> a_id a = acc_id ->
             a_user_id a <> uid) ->
  db (snd (delete_account acc_id uid w)) = db w.
Proof.
  intros H. rewrite delete_account_run.
  destruct (hd false (store w)); [reflexivity|].
  cbn [snd db set_db].
  replace (map _ (accounts (db w))) with (accounts (db w));
    [apply set_accounts_same|].
  revert H. induction (accounts (db w)) as [|a l IH]; intros H;
    [reflexivity|].
  simpl. rewrite <- IH by (intros b I; apply H; right; exact I).
  destruct (a_id a =? acc_id) eqn:E1; [|reflexivity].
  destruct (a_user_id a =? uid) eqn:E2; [|reflexivity].
  apply Z.eqb_eq in E1. apply Z.eqb_eq in E2.
  exfalso. apply (H a); [left; reflexivity | exact E1 | exact E2].
Qed.

(** X12: after [delete_account] has gone through, [get_user_accounts] no
    longer lists the account for its owner, and the users, groups and
    messages are as before. *)
Theorem deleted_account_is_not_listed (acc_id uid : Z) (w w2 : world) :
  fst (delete_account acc_id uid w) = Ret tt ->
  db w2 = db (snd (delete_account acc_id uid w)) ->
  hd false (store w2) = false ->
  (exists l, fst (get_user_accounts uid w2) = Ret l /\
             ~ In acc_id (map fst l)) /\
  users (db w2) = users (db w) /\ groups (db w2) = groups (db w) /\
  messages (db w2) = messages (db w).
Proof.
  intros Hok Hdb Hst. rewrite delete_account_run in Hok, Hdb.
  destruct (hd false (store w)); [discriminate Hok|].
  cbn [snd db set_db] in Hdb.
  split; [|rewrite Hdb; repeat split; reflexivity].
  rewrite get_user_accounts_run, Hst. eexists. split; [reflexivity|].
  rewrite Hdb. cbn [accounts set_accounts]. rewrite map_map. cbn [fst].
  intros I. apply in_map_iff in I. destruct I as (a & Eid & I).
  apply filter_In in I. destruct I as [I C].
  apply andb_true_iff in C. destruct C as [C1 C2].
  apply Z.eqb_eq in C1. apply Z.eqb_eq in C2.
  apply in_map_iff in I. destruct I as (a0 & Ea & _).
  destruct (a_id a0 =? acc_id) eqn:E1; destruct (a_user_id a0 =? uid) eqn:E2;
    cbn [andb] in Ea; subst a.
  - cbn [deactivated a_is_active] in C2. discriminate.
  - apply Z.eqb_neq in E2. contradiction.
  - apply Z.eqb_neq in E1. contradiction.
  - apply Z.eqb_neq in E1. contradiction.
Qed.

(** X13: once a user has switched off the only active account he had, the
    worker sends nothing for his ads and writes nothing: the body of the
    loop leaves at the session gate or before. *)
Theorem worker_stops_without_account
  (acc_id uid : Z) (w w2 : world) (a : ad) :
  fst (delete_account acc_id uid w) = Ret tt ->
  (forall c, In c (accounts (db w)) -> a_user_id c = uid ->
             a_is_active c = 1 -> a_id c = acc_id) ->
  db w2 = db (snd (delete_account acc_id uid w)) ->
  ad_user_id a = uid ->
  fst (ad_body a w2) <> Ret PassDone /\
  trace (snd (ad_body a w2)) = trace w2 /\
  db (snd (ad_body a w2)) = db w2.
Proof.
  intros Hok Honly Hdb Ha. rewrite delete_account_run in Hok, Hdb.
  destruct (hd false (store w)); [discriminate Hok|].
  cbn [snd db set_db] in Hdb.
  assert (Hnone : first_session_string uid (db w2) = None).
  { rewrite Hdb, first_session_string_set_accounts.
    rewrite (no_active_account_left _ _ _ Honly). reflexivity. }
  destruct (ad_body_cases a w2)
    as [(N & Ed & Et & _) | (s & _ & _ & _ & Hf & _)].
  - auto.
  - rewrite Ha, Hnone in Hf. discriminate.
Qed.

(** X14: the worker uses the session of the user's first active account:
    linking one more account leaves the session in use as it is, and only a
    user without an active account gets the new session; nothing changes
    for other users. *)
Theorem first_linked_account_stays_in_use
  (uid v : Z) (phone session : string) (d : database) :
  first_session_string uid (insert_account uid phone session d)
  = match first_session_string uid d with
    | Some s0 => Some s0
    | None => Some session
    end /\
  (v <> uid ->
   first_session_string v (insert_account uid phone session d)
   = first_session_string v d).
Proof.
  unfold insert_account. rewrite !first_session_string_set_accounts.
  rewrite !filter_app. unfold first_session_string. split.
  - cbn [filter a_user_id a_is_active]. rewrite Z.eqb_refl. cbn [andb Z.eqb].
    destruct (filter _ (accounts d)); reflexivity.
  - intros N. cbn [filter a_user_id a_is_active].
    destruct (Z.eqb_spec uid v) as [E|_]; [congruence|]. cbn [andb].
    rewrite app_nil_r. reflexivity.
Qed.

End Accounts.

Lemma delete_account_only_own_witness :
  db (snd (delete_account 2 7 (Demo.world0 [] [])))
  = db (Demo.world0 [] []).
Proof.
  apply (delete_account_only_own 2 7 (Demo.world0 [] [])).
  simpl. intros a [<-|[<-|[]]] E; simpl in *; discriminate.
Defined.

Lemma deleted_account_is_not_listed_witness :
  let w := Demo.world0 [] [] in
  let w2 := snd (delete_account 1 7 w) in
  (exists l, fst (get_user_accounts 7 w2) = Ret l /\
             ~ In 1 (map fst l)) /\
  users (db w2) = users (db w) /\ groups (db w2) = groups (db w) /\
  messages (db w2) = messages (db w).
Proof.
  intros w w2.
  apply (deleted_account_is_not_listed 1 7 w w2); reflexivity.
Defined.

Lemma worker_stops_without_account_witness :
  let w := Demo.world0 [] [] in
  let w2 := snd (delete_account 1 7 w) in
  fst (@ad_body Iso.codec Iso.config Demo.ad1 w2) <> Ret PassDone /\
  trace (snd (@ad_body Iso.codec Iso.config Demo.ad1 w2)) = trace w2 /\
  db (snd (@ad_body Iso.codec Iso.config Demo.ad1 w2)) = db w2.
Proof.
  intros w w2.
  apply (@worker_stops_without_account Iso.codec Iso.config 1 7 w w2
           Demo.ad1); try reflexivity.
  simpl. intros c [<-|[<-|[]]] E; simpl in *; try reflexivity; discriminate.
Defined.

(** ** The dialog that stores a job *)

Lemma max_bounds_members x l : In x l -> x <= fold_right Z.max 0 l.
Proof.
  induction l as [|y l IH]; simpl; intros I; [contradiction|].
  destruct I as [<-|I]; [lia | specialize (IH I); lia].
Qed.

Lemma frozen_ids ms ms' :
  map frozen ms = map frozen ms' ->
  map m_id ms = map m_id ms' /\
  map m_interval_sec ms = map m_interval_sec ms'.
Proof.
  intros E. split.
  - assert (H : forall l, map m_id l
                 = map (fun x => fst (fst (fst (fst (fst x)))))
                       (map frozen l))
      by (intros l; rewrite map_map; reflexivity).
    rewrite !H, E. reflexivity.
  - assert (H : forall l, map m_interval_sec l
                 = map (fun x => snd (fst x)) (map frozen l))
      by (intros l; rewrite map_map; reflexivity).
    rewrite !H, E. reflexivity.
Qed.

Section Dialog.
Context {dt : Datetime} {cfg : Config} {txt : Text}.

(** The row the dialog stores. *)
Lemma ads_interval_received_run uid mt text photo w :
  ads_interval_received uid mt text photo w =
  match mt with
  | None => (Raise (Exception "AttributeError"), w)
  | Some m =>
      match int_of_str (strip m) with
      | None => (Ret NotANumber, w)
      | Some i =>
          if i <? 15 then (Ret TooSmall, w) else
          if hd false (store w) then (Raise sqlite_error, accessed w) else
          if max_sqlite_int <? i
          then (Raise (Exception "OverflowError"), accessed w)
          else (Ret (Saved i),
                set_db (set_messages (messages (db w) ++
                  [{| m_id := 1 + fold_right Z.max 0
                                    (map m_id (messages (db w)));
                      m_user_id := uid; m_text := text;
                      m_photo_path := photo; m_interval_sec := i;
                      m_last_sent := None; m_active := 1;
                      m_sent_count := 0 |}]) (db w)) (accessed w))
      end
  end.
Proof.
  unfold ads_interval_received. destruct mt as [m|]; [|reflexivity].
  destruct (int_of_str (strip m)) as [i|]; [|reflexivity].
  destruct (i <? 15); [reflexivity|].
  unfold bind, db_access, read_db, write_db, raise, ret, accessed.
  destruct (hd false (store w)); [reflexivity|]. cbn [db set_store].
  destruct (max_sqlite_int <? i); reflexivity.
Qed.

(** X15: the dialog stores a job only for a text that reads as an integer
    between 15 and the largest INTEGER of SQLite: the job is then appended
    with that interval, the collected text and photo, [active = 1], no
    [last_sent] and a [sent_count] of 0; in every other case (not a number,
    below 15, too large, no text, store fault) the tables are as they
    were. *)
Theorem interval_dialog_stores_valid_jobs_only
  (uid : Z) (mt text photo : option string) (w : world) :
  let r := ads_interval_received uid mt text photo w in
  (forall i, fst r = Ret (Saved i) ->
     (exists m, mt = Some m /\ int_of_str (strip m) = Some i) /\
     15 <= i <= max_sqlite_int /\
     db (snd r)
     = set_messages (messages (db w) ++
         [{| m_id := 1 + fold_right Z.max 0 (map m_id (messages (db w)));
             m_user_id := uid; m_text := text; m_photo_path := photo;
             m_interval_sec := i; m_last_sent := None; m_active := 1;
             m_sent_count := 0 |}]) (db w)) /\
  ((forall i, fst r <> Ret (Saved i)) -> db (snd r) = db w).
Proof.
  intros r. subst r. rewrite ads_interval_received_run.
  destruct mt as [m|]; [|split; [intros i H; discriminate H | reflexivity]].
  destruct (int_of_str (strip m)) as [i|] eqn:Ei;
    [|split; [intros i H; discriminate H | reflexivity]].
  destruct (Z.ltb_spec i 15);
    [split; [intros j H'; discriminate H' | reflexivity]|].
  destruct (hd false (store w));
    [split; [intros j H'; discriminate H' | reflexivity]|].
  destruct (Z.ltb_spec max_sqlite_int i);
    [split; [intros j H'; discriminate H' | reflexivity]|].
  split.
  - intros j Hj. injection Hj as <-.
    split; [exists m; split; [reflexivity | exact Ei]|].
    split; [lia | reflexivity].
  - intros N. exfalso. apply (N i). reflexivity.
Qed.

(** X16: the ids of the messages stay distinct: the dialog gives the job
    it stores an id larger than all ids of the table, and the worker never
    changes an id. *)
Theorem message_ids_stay_unique
  (uid : Z) (mt text photo : option string) (n : nat) (w : world) :
  NoDup (map m_id (messages (db w))) ->
  NoDup (map m_id (messages
           (db (snd (ads_interval_received uid mt text photo w))))) /\
  NoDup (map m_id (messages (db (snd (ads_worker n w))))).
Proof.
  intros ND. split.
  - rewrite ads_interval_received_run.
    destruct mt as [m|]; [|exact ND].
    destruct (int_of_str (strip m)) as [i|]; [|exact ND].
    destruct (i <? 15); [exact ND|].
    destruct (hd false (store w)); [exact ND|].
    destruct (max_sqlite_int <? i); [exact ND|].
    cbn [snd db set_db messages set_messages]. rewrite map_app.
    cbn [map m_id].
    apply NoDup_app; [exact ND | repeat constructor; intros [] |].
    intros x I [<-|[]]. apply max_bounds_members in I. lia.
  - destruct (frame_ads_worker n w) as (_ & _ & _ & E).
    apply frozen_ids in E. destruct E as [E _]. rewrite E. exact ND.
Qed.

(** X17: every stored job keeps an interval of at least 15 seconds: the
    dialog stores no smaller one and the worker never changes an
    interval. *)
Theorem job_intervals_stay_at_least_15
  (uid : Z) (mt text photo : option string) (n : nat) (w : world) :
  Forall (fun i => 15 <= i) (map m_interval_sec (messages (db w))) ->
  Forall (fun i => 15 <= i)
    (map m_interval_sec (messages
       (db (snd (ads_interval_received uid mt text photo w))))) /\
  Forall (fun i => 15 <= i)
    (map m_interval_sec (messages (db (snd (ads_worker n w))))).
Proof.
  intros H. split.
  - rewrite ads_interval_received_run.
    destruct mt as [m|]; [|exact H].
    destruct (int_of_str (strip m)) as [i|]; [|exact H].
    destruct (Z.ltb_spec i 15); [exact H|].
    destruct (hd false (store w)); [exact H|].
    destruct (max_sqlite_int <? i); [exact H|].
    cbn [snd db set_db messages set_messages]. rewrite map_app.
    apply Forall_app. split; [exact H|]. repeat constructor. assumption.
  - destruct (frame_ads_worker n w) as (_ & _ & _ & E).
    apply frozen_ids in E. destruct E as [_ E]. rewrite E. exact H.
Qed.

Lemma three_of_four_accesses (l : list bool) :
  forallb negb (firstn 4 l) = true -> forallb negb (firstn 3 l) = true.
Proof.
  destruct l as [|b0 [|b1 [|b2 [|b3 rest]]]]; simpl; intros H;
    repeat match goal with
           | b : bool |- _ => destruct b; try discriminate H
           end; reflexivity.
Qed.

Lemma no_row_above_max ms :
  find (fun m => m_id m =? 1 + fold_right Z.max 0 (map m_id ms)) ms = None.
Proof.
  destruct (find _ ms) as [m|] eqn:F; [|reflexivity].
  apply find_some in F. destruct F as [I E]. apply Z.eqb_eq in E.
  assert (H : m_id m <= fold_right Z.max 0 (map m_id ms))
    by (apply max_bounds_members, in_map, I).
  lia.
Qed.

(** X18: a job the dialog has just stored is among the ads of the next
    SELECT and, for an owner with a running subscription, a group and a
    session, the body of the loop sends it at its first visit, without
    waiting for the interval: the owner's active groups are each sent to,
    and the job's row then has a [sent_count] of 1 and the time of the
    UPDATE as [last_sent]. *)
Theorem saved_job_is_sent_at_first_visit
  (uid i : Z) (mt text photo : option string) (w w2 : world) (s : string) :
  fst (ads_interval_received uid mt text photo w) = Ret (Saved i) ->
  db w2 = db (snd (ads_interval_received uid mt text photo w)) ->
  forallb negb (firstn 4 (store w2)) = true ->
  sub_active uid (db w2) (clock w2) = true ->
  user_groups uid (db w2) <> [] ->
  first_session_string uid (db w2) = Some s ->
  truthy s = true ->
  exists a,
    In a (map ad_of_row (filter (fun m => m_active m =? 1)
                                (messages (db w2)))) /\
    ad_user_id a = uid /\ ad_text a = text /\ ad_photo a = photo /\
    ad_interval a = i /\
    fst (ad_body a w2) = Ret PassDone /\
    targets (new_events w2 (snd (ad_body a w2)))
    = map g_group_id
        (filter (fun g => (g_user_id g =? uid) && (g_is_active g =? 1))
                (groups (db w2))) /\
    targets (new_events w2 (snd (ad_body a w2))) <> [] /\
    exists m',
      row_of (ad_msg_id a) (db (snd (ad_body a w2))) = Some m' /\
      m_sent_count m' = 1 /\
      m_last_sent m' = Some (isoformat (clock (snd (ad_body a w2)))).
Proof.
  intros Hok Hdb Hst Hs Hg Hf Ht.
  assert (Ed : db w2
               = set_messages (messages (db w) ++
                   [{| m_id := 1 + fold_right Z.max 0
                                     (map m_id (messages (db w)));
                       m_user_id := uid; m_text := text;
                       m_photo_path := photo; m_interval_sec := i;
                       m_last_sent := None; m_active := 1;
                       m_sent_count := 0 |}]) (db w)).
  { rewrite Hdb. rewrite ads_interval_received_run in Hok |- *.
    destruct mt as [m|]; [|discriminate Hok].
    destruct (int_of_str (strip m)) as [j|]; [|discriminate Hok].
    destruct (j <? 15); [discriminate Hok|].
    destruct (hd false (store w)); [discriminate Hok|].
    destruct (max_sqlite_int <? j); [discriminate Hok|].
    injection Hok as ->. reflexivity. }
  set (a := {| ad_msg_id := 1 + fold_right Z.max 0
                                  (map m_id (messages (db w)));
               ad_user_id := uid; ad_text := text; ad_photo := photo;
               ad_interval := i; ad_last_sent := None |}).
  assert (V : fst (ad_body a w2) = Ret PassDone)
    by (apply (ad_body_admits a w2 s); try assumption; reflexivity).
  assert (T : targets (new_events w2 (snd (ad_body a w2)))
              = map g_group_id
                  (filter (fun g => (g_user_id g =? uid)
                                    && (g_is_active g =? 1))
                          (groups (db w2)))).
  { rewrite (ad_body_pass_trace a w2 s); try assumption;
      [|apply three_of_four_accesses; exact Hst | reflexivity].
    rewrite targets_pass_events. apply map_group_ref. }
  exists a. split.
  { rewrite Ed. cbn [messages set_messages].
    rewrite filter_app, map_app. apply in_or_app. right. left. reflexivity. }
  repeat (split; [reflexivity|]).
  split; [exact V|]. split; [exact T|]. split.
  { rewrite T, <- map_group_ref. intros E. apply Hg.
    destruct (user_groups uid (db w2)); [reflexivity | discriminate E]. }
  eexists. split.
  - apply (ad_body_done_row a w2); [exact V|].
    unfold row_of. rewrite Ed. cbn [messages set_messages ad_msg_id a].
    rewrite (find_app_none _ _ _ (no_row_above_max (messages (db w)))).
    cbn [m_id]. rewrite Z.eqb_refl. reflexivity.
  - split; reflexivity.
Qed.

End Dialog.

Lemma message_ids_stay_unique_witness :
  let w := Demo.world0 [] [] in
  NoDup (map m_id (messages
           (db (snd (@ads_interval_received Dec.text 7 (Some " 45 ")
                       (Some "Yangi") None w))))) /\
  NoDup (map m_id (messages
           (db (snd (@ads_worker Iso.codec Iso.config 2 w))))).
Proof.
  intros w.
  apply (@message_ids_stay_unique Iso.codec Iso.config Dec.text 7
           (Some " 45 ") (Some "Yangi") None 2 w).
  simpl. repeat constructor; simpl; intuition discriminate.
Defined.

Lemma job_intervals_stay_at_least_15_witness :
  let w := Demo.world0 [] [] in
  Forall (fun i => 15 <= i)
    (map m_interval_sec (messages
       (db (snd (@ads_interval_received Dec.text 7 (Some " 45 ")
                   (Some "Yangi") None w))))) /\
  Forall (fun i => 15 <= i)
    (map m_interval_sec (messages
       (db (snd (@ads_worker Iso.codec Iso.config 2 w))))).
Proof.
  intros w.
  apply (@job_intervals_stay_at_least_15 Iso.codec Iso.config Dec.text 7
           (Some " 45 ") (Some "Yangi") None 2 w).
  simpl. repeat constructor; lia.
Defined.

Lemma saved_job_is_sent_at_first_visit_witness :
  let w := Demo.world0 [] [] in
  let w2 := snd (@ads_interval_received Dec.text 7 (Some " 45 ")
                   (Some "Yangi") None w) in
  exists a,
    In a (map ad_of_row (filter (fun m => m_active m =? 1)
                                (messages (db w2)))) /\
    ad_user_id a = 7 /\ ad_text a = Some "Yangi" /\ ad_photo a = None /\
    ad_interval a = 45 /\
    fst (@ad_body Iso.codec Iso.config a w2) = Ret PassDone /\
    targets (new_events w2 (snd (@ad_body Iso.codec Iso.config a w2)))
    = map g_group_id
        (filter (fun g => (g_user_id g =? 7) && (g_is_active g =? 1))
                (groups (db w2))) /\
    targets (new_events w2 (snd (@ad_body Iso.codec Iso.config a w2)))
    <> [] /\
    exists m',
      row_of (ad_msg_id a)
        (db (snd (@ad_body Iso.codec Iso.config a w2))) = Some m' /\
      m_sent_count m' = 1 /\
      m_last_sent m'
      = Some (@isoformat Iso.codec
                (clock (snd (@ad_body Iso.codec Iso.config a w2)))).
Proof.
  intros w w2.
  apply (@saved_job_is_sent_at_first_visit Iso.codec Iso.config Dec.text
           7 45 (Some " 45 ") (Some "Yangi") None w w2 "1BVtsOKsession7").
  - vm_compute. reflexivity.
  - reflexivity.
  - reflexivity.
  - vm_compute. reflexivity.
  - vm_compute. discriminate.
  - reflexivity.
  - reflexivity.
Defined.

Example demo_interval_dialog :
  map (fun mt => fst (@ads_interval_received Dec.text 7 mt (Some "Yangi")
                        None (Demo.world0 [] [])))
      [Some "60"; Some " 15"; Some "14"; Some "-3"; Some "bir soat";
       Some ""; Some "9223372036854775808"; None]
  = [Ret (Saved 60); Ret (Saved 15); Ret TooSmall; Ret TooSmall;
     Ret NotANumber; Ret NotANumber; Raise (Exception "OverflowError");
     Raise (Exception "AttributeError")].
Proof. vm_compute. reflexivity. Qed.

(** ** The worker over time *)

Lemma pass_delay_nonneg gs : forall rs, 0 <= pass_delay gs rs.
Proof.
  induction gs as [|g gs IH]; intros rs; cbn [pass_delay]; [lia|].
  specialize (IH (tl rs)). unfold delay_after.
  destruct (hd Delivered rs); lia.
Qed.

Lemma pass_delay_all_delivered gs : forall rs,
  Forall (fun r => r = Delivered) rs ->
  pass_delay gs rs = Z.of_nat (List.length gs) * 500000.
Proof.
  induction gs as [|g gs IH]; intros rs H; [reflexivity|].
  cbn [pass_delay List.length]. rewrite Nat2Z.inj_succ.
  destruct rs as [|r rs]; cbn [hd tl].
  - rewrite (IH [] H). cbn [delay_after]. lia.
  - inversion H as [|? ? Hr Hrs]; subst. rewrite (IH rs Hrs).
    cbn [delay_after]. lia.
Qed.

Section Time.
Context {dt : Datetime} {cfg : Config}.

(** X19: a send that fails for a reason other than throttling is logged
    with its destination, costs no wait, and the pass goes on with the next
    destination. *)
Theorem failed_send_is_logged_and_skipped
  (s : string) (t p : option string) (i : Z) (g name : string)
  (rest : list (Z * string * string)) (what : string) (w : world) :
  hd Delivered (provider w) = Failed what ->
  fan_out s t p ((i, g, name) :: rest) w
  = fan_out s t p rest
      {| db := db w;
         clock := clock w;
         provider := tl (provider w);
         store := store w;
         trace := (trace w ++ [send_event s g t p (Failed what);
                               EvErrorSend g (Exception what)])%list |}.
Proof.
  intros Hr. rewrite fan_out_cons, Hr. cbn [delay_after after_send].
  rewrite Z.add_0_r. reflexivity.
Qed.

Lemma slept_app evs evs' : slept (evs ++ evs') = slept evs + slept evs'.
Proof.
  induction evs as [|e evs IH]; [reflexivity|].
  destruct e; cbn [app slept]; rewrite IH; lia.
Qed.

Lemma slept_pass_events s t p gs : forall rs,
  slept (pass_events s t p gs rs) = pass_delay gs rs.
Proof.
  induction gs as [|[[i g] name] rest IH]; intros rs; [reflexivity|].
  cbn [pass_events pass_delay].
  assert (S1 : forall tl,
            slept (send_event s g t p (hd Delivered rs) :: tl) = slept tl).
  { intros tl. unfold send_event.
    destruct p as [ph|]; [destruct (truthy ph)|]; reflexivity. }
  rewrite S1, slept_app, IH.
  destruct (hd Delivered rs); cbn [after_send slept delay_after]; lia.
Qed.

(** X20: a pass over [N] groups asks the provider exactly [N] times, one
    send per group whatever the replies, and never turns the clock back;
    the clock advances by at least the time the pass sleeps, and when every
    send is delivered the pass sleeps [N] times half a second. *)
Theorem pass_asks_once_per_group
  (s : string) (t p : option string) (gs : list (Z * string * string))
  (w : world) :
  let w' := snd (fan_out s t p gs w) in
  provider w' = skipn (List.length gs) (provider w) /\
  List.length (targets (new_events w w')) = List.length gs /\
  clock w <= clock w' /\
  clock w + slept (new_events w w') <= clock w' /\
  (Forall (fun r => r = Delivered) (provider w) ->
   slept (new_events w w') = Z.of_nat (List.length gs) * 500000).
Proof.
  intros w'. subst w'. rewrite fan_out_run. cbn [snd provider clock].
  rewrite (new_events_app w (pass_events s t p gs (provider w)))
    by reflexivity.
  rewrite slept_pass_events.
  split; [reflexivity|]. split.
  - rewrite targets_pass_events. apply length_map.
  - split; [|split].
    + assert (H := pass_delay_nonneg gs (provider w)). lia.
    + lia.
    + intros H. apply pass_delay_all_delivered. exact H.
Qed.

Lemma clock_ad_body a w : clock w <= clock (snd (ad_body a w)).
Proof.
  destruct (ad_body_cases a w)
    as [(_ & _ & _ & E & _) | (s & _ & _ & _ & _ & _ & _ & E & _)];
    rewrite E; [lia|].
  assert (H := pass_delay_nonneg (user_groups (ad_user_id a) (db w))
                 (provider w)). lia.
Qed.

Lemma clock_for_ads ads : forall w, clock w <= clock (snd (for_ads ads w)).
Proof.
  induction ads as [|a rest IH]; intros w; [simpl; lia|].
  rewrite for_ads_cons. assert (H := clock_ad_body a w).
  destruct (ad_body a w) as [[v|e] w1]; cbn [snd] in *; [|exact H].
  specialize (IH w1). lia.
Qed.

Lemma clock_tick w : clock w + 8000000 <= clock (snd (tick w)).
Proof.
  rewrite tick_run. cbn [snd sleep clock emit set_clock].
  assert (H : clock w
              <= clock (snd ((ads <- select_active_ads ;; for_ads ads) w))).
  { unfold bind. rewrite select_active_ads_run.
    destruct (hd false (store w)); [cbn; lia|].
    apply (clock_for_ads _ (accessed w)). }
  destruct ((ads <- select_active_ads ;; for_ads ads) w) as [[u|e] w1];
    cbn [snd clock emit] in *; lia.
Qed.

Lemma ticks_succ n w : ticks (S n) w = ticks n (snd (tick w)).
Proof. simpl. unfold bind. rewrite tick_run. reflexivity. Qed.

(** X21: the worker never raises, whatever the store and the provider do,
    and its turns are at least 8 seconds apart: after [n] turns the clock
    has advanced by at least [8 n] seconds. *)
Theorem worker_survives_and_paces (n : nat) (w : world) :
  fst (ads_worker n w) = Ret tt /\
  clock w + Z.of_nat n * 8000000 <= clock (snd (ads_worker n w)).
Proof.
  assert (H : forall k v, fst (ticks k v) = Ret tt /\
                          clock v + Z.of_nat k * 8000000
                          <= clock (snd (ticks k v))).
  { induction k as [|k IH]; intros v.
    - split; [reflexivity | simpl; lia].
    - rewrite ticks_succ. destruct (IH (snd (tick v))) as [IH1 IH2].
      split; [exact IH1|]. assert (C := clock_tick v). lia. }
  unfold ads_worker, bind, log. apply (H n (emit EvInfoStarted w)).
Qed.

(** X22: when the SELECT of a turn fails, the turn sends nothing and
    writes nothing: it logs the error once and sleeps its 8 seconds. *)
Theorem failed_select_costs_one_turn (w : world) :
  hd false (store w) = true ->
  tick w
  = (Ret tt,
     {| db := db w;
        clock := clock w + 8000000;
        provider := provider w;
        store := tl (store w);
        trace := (trace w ++ [EvErrorLoop sqlite_error;
                              EvSleep 8000000])%list |}).
Proof.
  intros H. rewrite tick_run. unfold bind.
  rewrite select_active_ads_run, H.
  unfold sleep, emit, set_clock, accessed, set_store.
  cbn [snd db clock provider store trace Z.max].
  rewrite <- app_assoc. reflexivity.
Qed.

(** X23: a job stamped at the time [t] is not sent again by a body that
    starts less than its interval after [t]: the body leaves at the time
    check at the latest, with nothing sent and nothing written; the codec
    is assumed to read back the stamp. *)
Theorem no_resend_within_interval (a : ad) (w : world) (t : Z) :
  ad_last_sent a = Some (isoformat t) ->
  truthy (isoformat t) = true ->
  fromisoformat (isoformat t) = Some (Naive t) ->
  -86399999913600 <= ad_interval a <= 86399999999999 ->
  clock w - t < ad_interval a * 1000000 ->
  snd (ad_body a w) = accessed w /\
  fst (ad_body a w)
  = if hd false (store w) then Raise sqlite_error
    else if sub_active (ad_user_id a) (db w) (clock w) then Ret NotDue
         else Ret NoSubscription.
Proof.
  intros El Ht Hp Hr Hc.
  assert (D : due (ad_interval a) (ad_last_sent a) (clock w) = false).
  { rewrite El. unfold due. rewrite Ht, Hp.
    unfold timedelta_seconds.
    assert (-999999999 <= ad_interval a / 86400)
      by (apply Z.div_le_lower_bound; lia).
    assert (ad_interval a / 86400 <= 999999999)
      by (apply Z.lt_succ_r; apply Z.div_lt_upper_bound; lia).
    destruct (Z.leb_spec (-999999999) (ad_interval a / 86400)); [|lia].
    destruct (Z.leb_spec (ad_interval a / 86400) 999999999); [|lia].
    cbn [andb negb].
    destruct (Z.ltb_spec (clock w - t) (ad_interval a * 1000000));
      [reflexivity | lia]. }
  rewrite ad_body_run, D.
  destruct (hd false (store w)); [split; reflexivity|].
  destruct (sub_active (ad_user_id a) (db w) (clock w));
    split; reflexivity.
Qed.

End Time.

Lemma failed_send_is_logged_and_skipped_witness :
  let w := Demo.world0 [Failed "ChatWriteForbiddenError"; Delivered] [] in
  let s := "1BVtsOKsession7" in
  let gs := [(2, "-1001234567890", "Elonlar")] in
  @fan_out s (Some "Salom") None ((1, "@bozor", "Bozor") :: gs) w
  = @fan_out s (Some "Salom") None gs
      {| db := db w;
         clock := clock w;
         provider := tl (provider w);
         store := store w;
         trace := (trace w ++ [send_event s "@bozor" (Some "Salom") None
                                 (Failed "ChatWriteForbiddenError");
                               EvErrorSend "@bozor"
                                 (Exception "ChatWriteForbiddenError")])%list
      |}.
Proof.
  intros w s gs.
  apply (@failed_send_is_logged_and_skipped s (Some "Salom") None 1
           "@bozor" "Bozor" gs "ChatWriteForbiddenError" w).
  reflexivity.
Defined.

Lemma failed_select_costs_one_turn_witness :
  let w := Demo.world0 [] [true] in
  @tick Iso.codec Iso.config w
  = (Ret tt,
     {| db := db w;
        clock := clock w + 8000000;
        provider := provider w;
        store := tl (store w);
        trace := (trace w ++ [EvErrorLoop sqlite_error;
                              EvSleep 8000000])%list |}).
Proof.
  intros w.
  apply (@failed_select_costs_one_turn Iso.codec Iso.config w).
  reflexivity.
Defined.

Lemma no_resend_within_interval_witness :
  let w1 := snd (@tick Iso.codec Iso.config (Demo.world0 [] [])) in
  let a := {| ad_msg_id := 1; ad_user_id := 7; ad_text := Some "Salom";
              ad_photo := None; ad_interval := 60;
              ad_last_sent := Some "2024-02-29T12:30:06" |} in
  fst (@select_active_ads w1)
  = Ret [a; {| ad_msg_id := 2; ad_user_id := 8;
               ad_text := Some "Chegirma";
               ad_photo := Some "photos/8/41.jpg"; ad_interval := 120;
               ad_last_sent := Some "2024-02-29T12:30:06.500000" |}] /\
  snd (@ad_body Iso.codec Iso.config a w1) = accessed w1 /\
  fst (@ad_body Iso.codec Iso.config a w1)
  = if hd false (store w1) then Raise sqlite_error
    else if @sub_active Iso.codec (ad_user_id a) (db w1) (clock w1)
         then Ret NotDue else Ret NoSubscription.
Proof.
  intros w1 a. split; [vm_compute; reflexivity|].
  apply (@no_resend_within_interval Iso.codec Iso.config a w1
           (Iso.to_us 2024 2 29 12 30 6 0)).
  - vm_compute. reflexivity.
  - vm_compute. reflexivity.
  - vm_compute. reflexivity.
  - vm_compute. split; intros; discriminate.
  - vm_compute. reflexivity.
Defined.

(** ** Rows through the turns *)

Lemma row_of_some id d m :
  row_of id d = Some m -> In m (messages d) /\ m_id m = id.
Proof.
  unfold row_of. intros H. apply find_some in H.
  destruct H as [I E]. apply Z.eqb_eq in E. auto.
Qed.

Lemma sent_counts_stamped id ts ms :
  Forall2 (fun m m' => m_sent_count m <= m_sent_count m') ms
    (map (fun m => if m_id m =? id then stamp ts m else m) ms).
Proof.
  induction ms as [|m ms IH]; simpl; constructor; [|exact IH].
  destruct (m_id m =? id); simpl; lia.
Qed.

Lemma sent_counts_refl ms :
  Forall2 (fun m m' : message_row => m_sent_count m <= m_sent_count m')
    ms ms.
Proof. induction ms; constructor; [lia | assumption]. Qed.

Lemma sent_counts_trans ms1 : forall ms2 ms3,
  Forall2 (fun m m' : message_row => m_sent_count m <= m_sent_count m')
    ms1 ms2 ->
  Forall2 (fun m m' : message_row => m_sent_count m <= m_sent_count m')
    ms2 ms3 ->
  Forall2 (fun m m' : message_row => m_sent_count m <= m_sent_count m')
    ms1 ms3.
Proof.
  induction ms1 as [|m ms1 IH]; intros ms2 ms3 H12 H23;
    inversion H12; subst; inversion H23; subst; constructor;
    [lia | eapply IH; eassumption].
Qed.

Lemma sub_active_stays_false {dt : Datetime} uid d d' now now' :
  sub_active uid d now = false ->
  users d' = users d -> now <= now' ->
  sub_active uid d' now' = false.
Proof.
  unfold sub_active, find_user, paid_after. intros H -> Hn.
  destruct (find _ (users d)) as [row|]; [|reflexivity].
  destruct (u_paid_until row) as [s|]; [|reflexivity].
  destruct (truthy s); [|reflexivity]. cbn [andb] in *.
  destruct (fromisoformat s) as [[until|until o]|]; try reflexivity.
  rewrite Z.gtb_ltb in *. apply Z.ltb_ge in H. apply Z.ltb_ge. lia.
Qed.

Section RowsInTime.
Context {dt : Datetime} {cfg : Config}.

Lemma sent_counts_ad_body a w :
  Forall2 (fun m m' => m_sent_count m <= m_sent_count m')
    (messages (db w)) (messages (db (snd (ad_body a w)))).
Proof.
  destruct (ad_body_cases a w)
    as [(_ & E & _) | (s & _ & _ & _ & _ & _ & _ & _ & _ & [[_ E]|[_ E]])];
    rewrite E; try apply sent_counts_refl.
  apply sent_counts_stamped.
Qed.

Lemma sent_counts_for_ads ads : forall w,
  Forall2 (fun m m' => m_sent_count m <= m_sent_count m')
    (messages (db w)) (messages (db (snd (for_ads ads w)))).
Proof.
  induction ads as [|a rest IH]; intros w; [apply sent_counts_refl|].
  rewrite for_ads_cons. assert (H := sent_counts_ad_body a w).
  destruct (ad_body a w) as [[v|e] w1]; cbn [snd] in *; [|exact H].
  eapply sent_counts_trans; [exact H | apply IH].
Qed.

Lemma tick_db w :
  db (snd (tick w))
  = if hd false (store w) then db w
    else db (snd (for_ads (map ad_of_row
                             (filter (fun m => m_active m =? 1)
                                     (messages (db w))))
                          (accessed w))).
Proof.
  rewrite tick_run. unfold bind. rewrite select_active_ads_run.
  destruct (hd false (store w)); [reflexivity|].
  destruct (for_ads _ (accessed w)) as [[u|e] w1]; reflexivity.
Qed.

(** X24: the counters of the messages never go down: over any number of
    turns of the worker, every row keeps or raises its [sent_count]. *)
Theorem sent_counts_never_decrease (n : nat) (w : world) :
  Forall2 (fun m m' => m_sent_count m <= m_sent_count m')
    (messages (db w)) (messages (db (snd (ads_worker n w)))).
Proof.
  assert (T : forall v,
            Forall2 (fun m m' => m_sent_count m <= m_sent_count m')
              (messages (db v)) (messages (db (snd (tick v))))).
  { intros v. rewrite tick_db.
    destruct (hd false (store v)); [apply sent_counts_refl|].
    apply (sent_counts_for_ads _ (accessed v)). }
  assert (H : forall k v,
            Forall2 (fun m m' => m_sent_count m <= m_sent_count m')
              (messages (db v)) (messages (db (snd (ticks k v))))).
  { induction k as [|k IH]; intros v; [apply sent_counts_refl|].
    rewrite ticks_succ.
    eapply sent_counts_trans; [apply T | apply IH]. }
  unfold ads_worker, bind, log. apply (H n (emit EvInfoStarted w)).
Qed.

Lemma for_ads_row_once ads : forall w id m,
  NoDup (map ad_msg_id ads) ->
  row_of id (db w) = Some m ->
  row_of id (db (snd (for_ads ads w))) = Some m \/
  exists ts, row_of id (db (snd (for_ads ads w))) = Some (stamp ts m).
Proof.
  induction ads as [|a rest IH]; intros w id m ND R; [left; exact R|].
  rewrite for_ads_cons. cbn [map] in ND.
  inversion ND as [|? ? Hn Hd]; subst.
  destruct (Z.eq_dec id (ad_msg_id a)) as [->|N].
  - assert (A : row_of (ad_msg_id a) (db (snd (ad_body a w))) = Some m \/
                exists ts, row_of (ad_msg_id a) (db (snd (ad_body a w)))
                           = Some (stamp ts m)).
    { destruct (ad_body_cases a w)
        as [(_ & E & _)
           | (s & _ & _ & _ & _ & _ & _ & _ & _ & [[_ E]|[_ E]])].
      - left. rewrite E. exact R.
      - left. rewrite E. exact R.
      - right. eexists. rewrite E at 1.
        rewrite row_of_stamped_same, R. reflexivity. }
    destruct (ad_body a w) as [[v|e] w1]; cbn [snd] in *; [|exact A].
    rewrite for_ads_row_other by exact Hn. exact A.
  - assert (A := ad_body_row_other a w id N).
    destruct (ad_body a w) as [[v|e] w1]; cbn [snd] in *.
    + apply IH; [exact Hd | rewrite A; exact R].
    + left. rewrite A. exact R.
Qed.

(** X25: in one turn a stored job gets the UPDATE at most once: with
    distinct message ids, the row of an id after the turn is the row
    before it, or that row stamped once ([sent_count] one larger, a new
    [last_sent], all else equal). *)
Theorem at_most_one_stamp_per_turn (w : world) (id : Z) (m : message_row) :
  NoDup (map m_id (messages (db w))) ->
  row_of id (db w) = Some m ->
  row_of id (db (snd (tick w))) = Some m \/
  exists ts, row_of id (db (snd (tick w))) = Some (stamp ts m).
Proof.
  intros ND R. rewrite tick_db.
  destruct (hd false (store w)); [left; exact R|].
  apply for_ads_row_once; [apply NoDup_selected_ids; exact ND | exact R].
Qed.

Lemma tick_keeps_ids w :
  map m_id (messages (db (snd (tick w)))) = map m_id (messages (db w)).
Proof.
  destruct (frame_tick w) as (_ & _ & _ & E).
  apply frozen_ids in E. apply E.
Qed.

Lemma not_selected_when_inactive id m ms :
  NoDup (map m_id ms) -> In m ms -> m_id m = id -> m_active m <> 1 ->
  ~ In id (map ad_msg_id (map ad_of_row
                            (filter (fun m => m_active m =? 1) ms))).
Proof.
  intros ND I E A H. rewrite map_map in H. cbn [ad_of_row ad_msg_id] in H.
  apply in_map_iff in H. destruct H as (m' & E' & I').
  apply filter_In in I'. destruct I' as [I' A']. apply Z.eqb_eq in A'.
  assert (m' = m)
    by (apply (NoDup_map_eq m_id ms); try assumption; congruence).
  subst m'. contradiction.
Qed.

(** X26: a job that is switched off is left alone: with distinct message
    ids, over any number of turns the row of a message with [active <> 1]
    stays exactly as it is. *)
Theorem paused_job_is_left_alone
  (n : nat) (w : world) (id : Z) (m : message_row) :
  NoDup (map m_id (messages (db w))) ->
  row_of id (db w) = Some m ->
  m_active m <> 1 ->
  row_of id (db (snd (ads_worker n w))) = Some m.
Proof.
  intros ND R A.
  assert (T : forall v,
            NoDup (map m_id (messages (db v))) ->
            row_of id (db v) = Some m ->
            row_of id (db (snd (tick v))) = Some m).
  { intros v NDv Rv. rewrite tick_db.
    destruct (hd false (store v)); [exact Rv|].
    rewrite for_ads_row_other; [exact Rv|].
    destruct (row_of_some _ _ _ Rv) as [I E].
    apply (not_selected_when_inactive id m); assumption. }
  assert (H : forall k v,
            NoDup (map m_id (messages (db v))) ->
            row_of id (db v) = Some m ->
            row_of id (db (snd (ticks k v))) = Some m).
  { induction k as [|k IH]; intros v NDv Rv; [exact Rv|].
    rewrite ticks_succ. apply IH.
    - rewrite tick_keeps_ids. exact NDv.
    - apply T; assumption. }
  unfold ads_worker, bind, log.
  apply (H n (emit EvInfoStarted w)); assumption.
Qed.

Lemma ad_body_row_gated a w id :
  (ad_msg_id a = id ->
   sub_active (ad_user_id a) (db w) (clock w) = false) ->
  row_of id (db (snd (ad_body a w))) = row_of id (db w).
Proof.
  intros G. destruct (Z.eq_dec id (ad_msg_id a)) as [E|N];
    [|apply ad_body_row_other; exact N].
  destruct (ad_body_cases a w) as [(_ & Ed & _) | (s & Hs & _)].
  - rewrite Ed. reflexivity.
  - rewrite G in Hs by (symmetry; exact E). discriminate.
Qed.

Lemma for_ads_row_gated ads id uid : forall w,
  (forall a, In a ads -> ad_msg_id a = id -> ad_user_id a = uid) ->
  sub_active uid (db w) (clock w) = false ->
  row_of id (db (snd (for_ads ads w))) = row_of id (db w).
Proof.
  induction ads as [|a rest IH]; intros w Hown Hs; [reflexivity|].
  rewrite for_ads_cons.
  assert (A : row_of id (db (snd (ad_body a w))) = row_of id (db w)).
  { apply ad_body_row_gated. intros E.
    rewrite (Hown a (or_introl eq_refl) E). exact Hs. }
  assert (S1 : sub_active uid (db (snd (ad_body a w)))
                 (clock (snd (ad_body a w))) = false).
  { apply (sub_active_stays_false uid (db w) _ (clock w)); try exact Hs.
    - apply (frame_ad_body a w).
    - apply clock_ad_body. }
  destruct (ad_body a w) as [[v|e] w1]; cbn [snd] in *; [|exact A].
  rewrite IH; [exact A | | exact S1].
  intros b I. apply Hown. right. exact I.
Qed.

(** X27: an owner without a running subscription has his jobs left alone:
    with distinct message ids, over any number of turns the row of a
    message whose owner's subscription is not active at the start stays
    exactly as it is, as long as nothing else renews the subscription. *)
Theorem lapsed_owner_jobs_are_left_alone
  (n : nat) (w : world) (id : Z) (m : message_row) :
  NoDup (map m_id (messages (db w))) ->
  row_of id (db w) = Some m ->
  sub_active (m_user_id m) (db w) (clock w) = false ->
  row_of id (db (snd (ads_worker n w))) = Some m.
Proof.
  intros ND R S0.
  assert (T : forall v,
            NoDup (map m_id (messages (db v))) ->
            row_of id (db v) = Some m ->
            sub_active (m_user_id m) (db v) (clock v) = false ->
            row_of id (db (snd (tick v))) = Some m).
  { intros v NDv Rv Sv. rewrite tick_db.
    destruct (hd false (store v)); [exact Rv|].
    rewrite (for_ads_row_gated _ id (m_user_id m)); [exact Rv | | exact Sv].
    intros a I E. apply in_map_iff in I. destruct I as (m' & <- & I).
    apply filter_In in I. destruct I as [I _].
    destruct (row_of_some _ _ _ Rv) as [Im Eid].
    assert (m' = m)
      by (apply (NoDup_map_eq m_id (messages (db v))); try assumption;
          cbn [ad_of_row ad_msg_id] in E; congruence).
    subst m'. reflexivity. }
  assert (H : forall k v,
            NoDup (map m_id (messages (db v))) ->
            row_of id (db v) = Some m ->
            sub_active (m_user_id m) (db v) (clock v) = false ->
            row_of id (db (snd (ticks k v))) = Some m).
  { induction k as [|k IH]; intros v NDv Rv Sv; [exact Rv|].
    rewrite ticks_succ. apply IH.
    - rewrite tick_keeps_ids. exact NDv.
    - apply T; assumption.
    - apply (sub_active_stays_false _ (db v) _ (clock v)); try exact Sv.
      + apply (frame_tick v).
      + assert (C := clock_tick v). lia. }
  unfold ads_worker, bind, log.
  apply (H n (emit EvInfoStarted w)); assumption.
Qed.

End RowsInTime.

Lemma at_most_one_stamp_per_turn_witness :
  let w := Demo.world0 [Throttled 2] [] in
  let m := {| m_id := 1; m_user_id := 7; m_text := Some "Salom";
              m_photo_path := None; m_interval_sec := 60;
              m_last_sent := None; m_active := 1; m_sent_count := 0 |} in
  row_of 1 (db (snd (@tick Iso.codec Iso.config w))) = Some m \/
  exists ts, row_of 1 (db (snd (@tick Iso.codec Iso.config w)))
             = Some (stamp ts m).
Proof.
  intros w m.
  apply (@at_most_one_stamp_per_turn Iso.codec Iso.config w 1 m).
  - simpl. repeat constructor; simpl; intuition discriminate.
  - reflexivity.
Defined.

Lemma paused_job_is_left_alone_witness :
  let m := {| m_id := 3; m_user_id := 7; m_text := Some "Eski elon";
              m_photo_path := None; m_interval_sec := 30;
              m_last_sent := Some "2024-02-01T08:00:00"; m_active := 0;
              m_sent_count := 12 |} in
  let w := set_db (set_messages (messages Demo.tables ++ [m]) Demo.tables)
             (Demo.world0 [] []) in
  row_of 3 (db (snd (@ads_worker Iso.codec Iso.config 3 w))) = Some m.
Proof.
  intros m w.
  apply (@paused_job_is_left_alone Iso.codec Iso.config 3 w 3 m).
  - simpl. repeat constructor; simpl; intuition discriminate.
  - reflexivity.
  - simpl. discriminate.
Defined.

Lemma lapsed_owner_jobs_are_left_alone_witness :
  let w := set_clock (Iso.to_us 2024 3 2 9 0 0 0) (Demo.world0 [] []) in
  let m := {| m_id := 1; m_user_id := 7; m_text := Some "Salom";
              m_photo_path := None; m_interval_sec := 60;
              m_last_sent := None; m_active := 1; m_sent_count := 0 |} in
  row_of 1 (db (snd (@ads_worker Iso.codec Iso.config 3 w))) = Some m.
Proof.
  intros w m.
  apply (@lapsed_owner_jobs_are_left_alone Iso.codec Iso.config 3 w 1 m).
  - simpl. repeat constructor; simpl; intuition discriminate.
  - reflexivity.
  - vm_compute. reflexivity.
Defined.

Example demo_three_turns_after_one_lapse :
  let w := set_clock (Iso.to_us 2024 3 2 9 0 0 0) (Demo.world0 [] []) in
  map (fun m => (m_id m, m_sent_count m))
      (messages (db (snd (@ads_worker Iso.codec Iso.config 3 w))))
  = [(1, 0); (2, 1)].
Proof. vm_compute. reflexivity. Qed.

(** ** The list of a user's jobs *)

(** X28: the text [ads_list] shows for a job never has more than 43 code
    points: a text of at most 43 is shown as it is, a longer one as its
    first 40 code points followed by three dots; for a job stored without
    text the line raises [TypeError]. *)
Theorem short_text_fits (msg_text : option (list N)) :
  match msg_text with
  | None => short msg_text = Raise (Exception "TypeError")
  | Some cps =>
      exists shown,
        short msg_text = Ret shown /\
        (List.length shown <= 43)%nat /\
        ((List.length cps <= 43)%nat -> shown = cps) /\
        ((43 < List.length cps)%nat ->
         shown = (firstn 40 cps ++ [46%N; 46%N; 46%N])%list /\
         List.length shown = 43%nat)
  end.
Proof.
  destruct msg_text as [cps|]; [|reflexivity].
  unfold short.
  destruct (Nat.ltb_spec 43 (List.length cps)) as [Hl|Hs].
  - eexists. split; [reflexivity|].
    assert (L : List.length (firstn 40 cps ++ [46%N; 46%N; 46%N])
                = 43%nat).
    { rewrite length_app, length_firstn. cbn [List.length]. lia. }
    split; [rewrite L; lia|]. split; [lia|].
    intros _. split; [reflexivity | exact L].
  - exists cps. split; [reflexivity|]. split; [exact Hs|].
    split; [reflexivity | lia].
Qed.

(** A title of 44 Cyrillic letters, each one code point. *)
Example demo_short_cyrillic :
  short (Some (repeat 1078%N 44))
  = Ret (repeat 1078%N 40 ++ [46%N; 46%N; 46%N])%list.
Proof. vm_compute. reflexivity. Qed.

(** ** One session, one kind of send *)

Lemma in_pass_events_send s t p gs : forall rs e,
  In e (pass_events s t p gs rs) -> target_of e <> None ->
  exists g r, In g (map (fun x => snd (fst x)) gs) /\
              e = send_event s g t p r.
Proof.
  induction gs as [|[[i g] name] rest IH]; intros rs e I T;
    [contradiction|].
  cbn [pass_events] in I. destruct I as [<-|I].
  - exists g, (hd Delivered rs). split; [left|]; reflexivity.
  - apply in_app_or in I. destruct I as [I|I].
    + exfalso. apply T. destruct (hd Delivered rs); simpl in I;
        repeat (destruct I as [<-|I]; [reflexivity|]); contradiction.
    + destruct (IH _ _ I T) as (g' & r & Ig & E).
      exists g', r. split; [right; exact Ig | exact E].
Qed.

Section OneSession.
Context {dt : Datetime} {cfg : Config}.

(** X29: all the sends of one pass go out under one session, that of the
    owner's first active account, to a group of the owner, and are of one
    kind: [send_file] with the job's photo and the text as caption when the
    job has a photo, [send_message] with the text when it has none. *)
Theorem pass_uses_one_session_and_the_photo
  (a : ad) (w : world) (e : event) :
  In e (new_events w (snd (ad_body a w))) ->
  target_of e <> None ->
  exists s g r,
    first_session_string (ad_user_id a) (db w) = Some s /\
    In g (map g_group_id
            (filter (fun x => (g_user_id x =? ad_user_id a)
                              && (g_is_active x =? 1))
                    (groups (db w)))) /\
    e = match ad_photo a with
        | Some ph => if truthy ph
                     then EvSendFile s g ph (full_text (ad_text a)) r
                     else EvSendMessage s g (full_text (ad_text a)) r
        | None => EvSendMessage s g (full_text (ad_text a)) r
        end.
Proof.
  intros I T.
  destruct (ad_body_cases a w)
    as [(_ & _ & E & _) | (s & _ & _ & _ & Hf & _ & E & _)].
  - rewrite (new_events_same _ _ E) in I. contradiction.
  - rewrite (new_events_app _ _ _ E) in I.
    destruct (in_pass_events_send _ _ _ _ _ _ I T) as (g & r & Ig & Ee).
    exists s, g, r. split; [exact Hf|]. split.
    + rewrite <- map_group_ref. exact Ig.
    + exact Ee.
Qed.

End OneSession.

Lemma pass_uses_one_session_and_the_photo_witness :
  let w := Demo.world0 [] [] in
  let e := EvSendFile "1BVtsOKsession8" "@reklama" "photos/8/41.jpg"
             (Some ("Chegirma" ++ newline ++ newline ++ "Auto reklama")%string)
             Delivered in
  exists s g r,
    first_session_string (ad_user_id Demo.ad2) (db w) = Some s /\
    In g (map g_group_id
            (filter (fun x => (g_user_id x =? ad_user_id Demo.ad2)
                              && (g_is_active x =? 1))
                    (groups (db w)))) /\
    e = match ad_photo Demo.ad2 with
        | Some ph =>
            if truthy ph
            then EvSendFile s g ph
                   (@full_text Iso.config (ad_text Demo.ad2)) r
            else EvSendMessage s g
                   (@full_text Iso.config (ad_text Demo.ad2)) r
        | None => EvSendMessage s g
                    (@full_text Iso.config (ad_text Demo.ad2)) r
        end.
Proof.
  intros w e.
  apply (@pass_uses_one_session_and_the_photo Iso.codec Iso.config
           Demo.ad2 w e).
  - vm_compute. left. reflexivity.
  - simpl. discriminate.
Defined.
